(** * Foodgram backend: short-link codec, relation registry, shopping list

    A shallow embedding of the algorithmic fragments of the backend:

    - [api/services/short_links.py]: [encode], [decode], [redirect_short_link];
    - [api/mixins.py]: [AddRemoveMixin.add] and [AddRemoveMixin.remove];
    - [api/views.py]: [favorite], [shopping_cart], [subscribe],
      [download_shopping_cart];
    - [api/serializers.py]: [RecipeSerializer.create], [update] and
      [validate], and the computed fields;
    - [api/validators.py]: [validate_ingredients], [validate_tags];
    - [recipes/models.py]: the tables and their [unique_together] constraints.

    Python [int] is modelled as [Z]; a [str] as the [string] of the bytes of
    its UTF-8 encoding, so that a character outside ASCII is a run of bytes
    above 127, none of which is in the codec's alphabet; tables as lists of
    rows in insertion order; and the ORM calls as computations in a small
    monad that threads the database, records the statements issued, and may
    raise an exception. *)

From Stdlib Require Import ZArith List String Ascii Bool Lia DecimalString.
From Stdlib Require Import Permutation.
Import ListNotations.
Local Open Scope list_scope.
Local Open Scope string_scope.
Local Open Scope Z_scope.

(** ** Python exceptions raised by the modelled code

    [ValueError] also stands for its subclass [BadHeaderError]. [DataError]
    is what the database answers to a value outside the range of its column
    ([django.db.DataError], or the [OverflowError] of the SQLite driver). *)

Inductive exn : Type :=
| ValueError
| DoesNotExist
| MultipleObjectsReturned
| IntegrityError
| DataError
| Http404 (msg : string).

Inductive outcome (A : Type) : Type :=
| Ok (a : A)
| Raise (e : exn).
Arguments Ok {A} a.
Arguments Raise {A} e.

(** ** recipes/models.py: rows and tables *)

Module Models.

Record User : Type := mkUser { user_pk : Z; username : string }.

Record Ingredient : Type := mkIngredient {
  ingredient_pk : Z;
  ingredient_name : string;
  measurement_unit : string }.

Record Recipe : Type := mkRecipe {
  recipe_pk : Z;
  recipe_name : string;
  text : string;
  cooking_time : Z;
  image : string;
  author : Z }.

Record RecipeTag : Type := mkRecipeTag {
  rt_pk : Z; rt_recipe : Z; rt_tag : Z }.

Record RecipeIngredient : Type := mkRecipeIngredient {
  ri_pk : Z; ri_recipe : Z; ri_ingredient : Z; ri_amount : Z }.

(** [Favorite], [ShoppingCart] and [Subscription] have the same shape: a
    primary key, the [user] foreign key and a second foreign key ([recipe],
    or [author] for a subscription), with [unique_together] on the pair. *)
Inductive Model : Type := Favorite | ShoppingCart | Subscription.

Record Relation : Type := mkRelation {
  rel_pk : Z; rel_user : Z; rel_target : Z }.

(** A table with automatic primary keys: the rows in insertion order and the
    last key handed out. *)
Record Table (R : Type) : Type := mkTable { rows : list R; last_pk : Z }.
Arguments mkTable {R} rows last_pk.
Arguments rows {R} t.
Arguments last_pk {R} t.

Record DB : Type := mkDB {
  User_objects : list User;
  Recipe_objects : list Recipe;
  Ingredient_objects : list Ingredient;
  RecipeTag_objects : Table RecipeTag;
  RecipeIngredient_objects : Table RecipeIngredient;
  Favorite_objects : Table Relation;
  ShoppingCart_objects : Table Relation;
  Subscription_objects : Table Relation }.

Definition objects (model : Model) (db : DB) : Table Relation :=
  match model with
  | Favorite => Favorite_objects db
  | ShoppingCart => ShoppingCart_objects db
  | Subscription => Subscription_objects db
  end.

Definition set_objects (model : Model) (t : Table Relation) (db : DB) : DB :=
  match model with
  | Favorite =>
      mkDB (User_objects db) (Recipe_objects db) (Ingredient_objects db)
        (RecipeTag_objects db) (RecipeIngredient_objects db)
        t (ShoppingCart_objects db) (Subscription_objects db)
  | ShoppingCart =>
      mkDB (User_objects db) (Recipe_objects db) (Ingredient_objects db)
        (RecipeTag_objects db) (RecipeIngredient_objects db)
        (Favorite_objects db) t (Subscription_objects db)
  | Subscription =>
      mkDB (User_objects db) (Recipe_objects db) (Ingredient_objects db)
        (RecipeTag_objects db) (RecipeIngredient_objects db)
        (Favorite_objects db) (ShoppingCart_objects db) t
  end.

Definition set_Recipe_objects (l : list Recipe) (db : DB) : DB :=
  mkDB (User_objects db) l (Ingredient_objects db)
    (RecipeTag_objects db) (RecipeIngredient_objects db)
    (Favorite_objects db) (ShoppingCart_objects db) (Subscription_objects db).

Definition set_RecipeTag_objects (t : Table RecipeTag) (db : DB) : DB :=
  mkDB (User_objects db) (Recipe_objects db) (Ingredient_objects db)
    t (RecipeIngredient_objects db)
    (Favorite_objects db) (ShoppingCart_objects db) (Subscription_objects db).

Definition set_RecipeIngredient_objects
    (t : Table RecipeIngredient) (db : DB) : DB :=
  mkDB (User_objects db) (Recipe_objects db) (Ingredient_objects db)
    (RecipeTag_objects db) t
    (Favorite_objects db) (ShoppingCart_objects db) (Subscription_objects db).

(** The tables a statement can touch, and the statements. *)
Inductive table_name : Type :=
| TUser | TRecipe | TIngredient | TRecipeTag | TRecipeIngredient
| TRelation (model : Model).

Inductive access : Type :=
| Select (t : table_name)
| Insert (t : table_name)
| Update (t : table_name)
| Delete (t : table_name).

End Models.
Import Models.

(** ** Computations over the database

    A computation takes the database and returns its outcome (a value or a
    raised exception), the database afterwards and the statements it issued,
    in order. What was written before an exception stays written. *)

Definition M (A : Type) : Type := DB -> outcome A * DB * list access.

Definition ret {A} (a : A) : M A := fun db => (Ok a, db, []).

Definition bind {A B} (m : M A) (k : A -> M B) : M B :=
  fun db =>
    match m db with
    | (Ok a, db1, l1) =>
        match k a db1 with
        | (o, db2, l2) => (o, db2, (l1 ++ l2)%list)
        end
    | (Raise e, db1, l1) => (Raise e, db1, l1)
    end.

Definition raise {A} (e : exn) : M A := fun db => (Raise e, db, []).

(** [try: m except <handles>: h] *)
Definition try_except {A} (m : M A) (handles : exn -> bool) (h : exn -> M A)
  : M A :=
  fun db =>
    match m db with
    | (Ok a, db1, l1) => (Ok a, db1, l1)
    | (Raise e, db1, l1) =>
        if handles e then
          match h e db1 with
          | (o, db2, l2) => (o, db2, (l1 ++ l2)%list)
          end
        else (Raise e, db1, l1)
    end.

Definition query {A} (t : table_name) (f : DB -> A) : M A :=
  fun db => (Ok (f db), db, [Select t]).

(** One [SELECT] that joins several tables. *)
Definition query_join {A} (ts : list table_name) (f : DB -> A) : M A :=
  fun db => (Ok (f db), db, map Select ts).

Definition execute (stmt : access) (f : DB -> DB) : M unit :=
  fun db => (Ok tt, f db, [stmt]).

Definition lift {A} (o : outcome A) : M A := fun db => (o, db, []).

Declare Scope monad_scope.
Delimit Scope monad_scope with monad.
Notation "x <- m ;; k" := (bind m (fun x => k))
  (at level 61, m at next level, right associativity) : monad_scope.
Notation "' pat <- m ;; k" := (bind m (fun x => match x with pat => k end))
  (at level 61, pat pattern, m at next level, right associativity)
  : monad_scope.
Notation "m ;; k" := (bind m (fun _ => k))
  (at level 61, right associativity) : monad_scope.
Local Open Scope monad_scope.

Definition is_DoesNotExist (e : exn) : bool :=
  match e with DoesNotExist => true | _ => false end.
Definition is_IntegrityError (e : exn) : bool :=
  match e with IntegrityError => true | _ => false end.

(** ** The ORM calls the code makes *)

Module Orm.

Definition matches (user target : Z) (r : Relation) : bool :=
  (rel_user r =? user) && (rel_target r =? target).

(** [model.objects.get(user=..., <target>=...)] *)
Definition get (model : Model) (user target : Z) : M Relation :=
  found <- query (TRelation model)
             (fun db => filter (matches user target) (rows (objects model db))) ;;
  match found with
  | [] => raise DoesNotExist
  | [obj] => ret obj
  | _ :: _ :: _ => raise MultipleObjectsReturned
  end.

(** [model.objects.create(user=..., <target>=...)]: the insert is refused
    with [IntegrityError] when it would break [unique_together]. Both foreign
    keys are taken from instances the caller has loaded ([request.user] and
    the result of [get_object_or_404]), so the foreign-key checks pass and
    are left out. *)
Definition create (model : Model) (user target : Z) : M Relation :=
  fun db =>
    let t := objects model db in
    if existsb (matches user target) (rows t)
    then (Raise IntegrityError, db, [Insert (TRelation model)])
    else
      let obj := mkRelation (last_pk t + 1) user target in
      (Ok obj,
       set_objects model (mkTable (rows t ++ [obj]) (last_pk t + 1)) db,
       [Insert (TRelation model)]).

(** [model.objects.get_or_create(user=..., <target>=...)]: look the row up;
    when there is none create it; when the creation is refused look it up
    once more, and re-raise if it is still missing. *)
Definition get_or_create (model : Model) (user target : Z)
  : M (Relation * bool) :=
  try_except
    (obj <- get model user target ;; ret (obj, false))
    is_DoesNotExist
    (fun _ =>
       try_except
         (obj <- create model user target ;; ret (obj, true))
         is_IntegrityError
         (fun e =>
            try_except
              (obj <- get model user target ;; ret (obj, false))
              is_DoesNotExist
              (fun _ => raise e))).

(** [model.objects.filter(user=..., <target>=...).delete()]: the number of
    rows deleted. *)
Definition filter_delete (model : Model) (user target : Z) : M Z :=
  fun db =>
    let t := objects model db in
    let gone := filter (matches user target) (rows t) in
    let kept := filter (fun r => negb (matches user target r)) (rows t) in
    (Ok (Z.of_nat (List.length gone)),
     set_objects model (mkTable kept (last_pk t)) db,
     [Delete (TRelation model)]).

(** [get_object_or_404(Recipe, pk=pk)] and [get_object_or_404(User, pk=pk)] *)
Definition get_Recipe_or_404 (pk : Z) : M Recipe :=
  found <- query TRecipe
             (fun db => find (fun r => recipe_pk r =? pk) (Recipe_objects db)) ;;
  match found with
  | Some recipe => ret recipe
  | None => raise (Http404 "No Recipe matches the given query.")
  end.

Definition get_User_or_404 (pk : Z) : M User :=
  found <- query TUser
             (fun db => find (fun u => user_pk u =? pk) (User_objects db)) ;;
  match found with
  | Some user => ret user
  | None => raise (Http404 "No User matches the given query.")
  end.

(** [Recipe.objects.get(id=recipe_id)]; the primary key selects at most one
    row. An id that no column can hold finds no row either; whether a
    statement is still sent for it depends on the version of Django, which
    the sources do not fix, so no property below rests on the statements of
    that case. *)
Definition get_Recipe (recipe_id : Z) : M Recipe :=
  found <- query TRecipe
             (fun db => find (fun r => recipe_pk r =? recipe_id)
                          (Recipe_objects db)) ;;
  match found with
  | Some recipe => ret recipe
  | None => raise DoesNotExist
  end.

End Orm.

(** ** api/services/short_links.py *)

Module ShortLinks.

Definition ALPHABET : string := "0123456789abcdefghijklmnopqrstuvwxyz".

(** [s.index(char)] for a one-character [char]: the position of its first
    occurrence, [None] standing for the [ValueError] Python raises. *)
Fixpoint index (s : string) (char : ascii) : option Z :=
  match s with
  | EmptyString => None
  | String c rest =>
      if Ascii.eqb c char then Some 0
      else match index rest char with
           | Some i => Some (i + 1)
           | None => None
           end
  end.

(** [ALPHABET[rem]]. [encode] only indexes with a remainder of a division by
    36, which is in range (lemma [getitem_in_range]); the default is never
    produced there. *)
Definition getitem (s : string) (i : Z) : ascii :=
  match String.get (Z.to_nat i) s with
  | Some c => c
  | None => "000"%char
  end.

Fixpoint zeros (n : nat) : string :=
  match n with
  | O => EmptyString
  | S k => String "0" (zeros k)
  end.

(** [str.zfill(width)]: a string already [width] long is returned as it is;
    otherwise zeros are inserted on the left, after a leading sign. *)
Definition zfill (width : nat) (s : string) : string :=
  if (width <=? String.length s)%nat then s
  else
    let fill := zeros (width - String.length s) in
    match s with
    | String c rest =>
        if (Ascii.eqb c "+" || Ascii.eqb c "-")%bool
        then String c (fill ++ rest)
        else fill ++ s
    | EmptyString => fill
    end.

(** The [while num:] loop of [encode]. Each unit of fuel pays for one test of
    the loop condition; [None] means the fuel ran out before the loop ended. *)
Fixpoint encode_loop (fuel : nat) (num : Z) (result : string) : option string :=
  match fuel with
  | O => None
  | S fuel' =>
      if num =? 0 then Some result
      else
        let (num', rem) := Z.div_eucl num 36 in
        encode_loop fuel' num' (String (getitem ALPHABET rem) result)
  end.

Definition encode_fuel (fuel : nat) (num : Z) : option string :=
  if num =? 0 then Some "000"
  else option_map (zfill 3) (encode_loop fuel num "").

(** Enough fuel for every non-negative [num]: the loop divides by 36 at each
    turn, so it ends within [log2 num + 2] tests (lemma [encode_loop_total]). *)
Definition encode_budget (num : Z) : nat := S (S (Z.to_nat (Z.log2 num))).

Definition encode (num : Z) : option string :=
  encode_fuel (encode_budget num) num.

Fixpoint decode_loop (code : string) (result : Z) : outcome Z :=
  match code with
  | EmptyString => Ok result
  | String char rest =>
      match index ALPHABET char with
      | Some i => decode_loop rest (result * 36 + i)
      | None => Raise ValueError
      end
  end.

Definition decode (code : string) : outcome Z := decode_loop code 0.

(** [str(n)] for an [int]. *)
Definition str (n : Z) : string := NilZero.string_of_int (Z.to_int n).

Inductive HttpResponseRedirect : Type :=
| redirect (url : string).

Definition handled (e : exn) : bool :=
  match e with
  | DoesNotExist | ValueError => true
  | _ => false
  end.

(** [base_url] stands for [request.build_absolute_uri('/').rstrip('/')]. *)
Definition redirect_short_link (base_url short_code : string)
  : M HttpResponseRedirect :=
  try_except
    (recipe_id <- lift (decode short_code) ;;
     recipe <- Orm.get_Recipe recipe_id ;;
     ret (redirect (base_url ++ "/api/recipes/" ++ str (recipe_pk recipe) ++ "/")))
    handled
    (fun _ => raise (Http404 "Короткая ссылка не найдена")).

End ShortLinks.

(** ** rest_framework responses *)

Definition HTTP_201_CREATED : Z := 201.
Definition HTTP_204_NO_CONTENT : Z := 204.
Definition HTTP_400_BAD_REQUEST : Z := 400.

(** The payload of a [Response]. [SubscriptionData author] stands for
    [SubscriptionSerializer(author, context=...).data], whose rendering is
    the framework's and is left uninterpreted. *)
Inductive data : Type :=
| Errors (msg : string)
| RecipeShortData (id : Z) (name image : string) (cooking_time : Z)
| SubscriptionData (author : User)
| NoData.

Record Response : Type := mkResponse { body : data; status : Z }.

(** The relation actions are declared with [methods=['post', 'delete']]. *)
Inductive method : Type := POST | DELETE.

Definition is_POST (m : method) : bool :=
  match m with POST => true | DELETE => false end.

(** [RecipeShortSerializer(recipe).data]: fields id, name, image,
    cooking_time. The image is identified by the name of the stored file;
    the framework renders the field as the absolute URL of that file. *)
Definition RecipeShortSerializer (recipe : Recipe) : data :=
  RecipeShortData (recipe_pk recipe) (recipe_name recipe) (image recipe)
    (cooking_time recipe).

(** ** api/mixins.py *)

Module AddRemoveMixin.

Section Mixin.
(** [self.model] and [self.serializer_class], set by the view. *)
Variable model : Model.
Variable serializer_class : Recipe -> data.

Definition add (user : User) (recipe : Recipe) : M Response :=
  '(obj, created) <- Orm.get_or_create model (user_pk user) (recipe_pk recipe) ;;
  if negb created then
    ret (mkResponse (Errors "Рецепт уже добавлен") HTTP_400_BAD_REQUEST)
  else
    ret (mkResponse (serializer_class recipe) HTTP_201_CREATED).

Definition remove (user : User) (recipe : Recipe) : M Response :=
  deleted <- Orm.filter_delete model (user_pk user) (recipe_pk recipe) ;;
  if deleted =? 0 then
    ret (mkResponse (Errors "Рецепта нет") HTTP_400_BAD_REQUEST)
  else
    ret (mkResponse NoData HTTP_204_NO_CONTENT).
End Mixin.

End AddRemoveMixin.

(** ** api/views.py *)

Module Views.

(** [RecipeViewSet.favorite] and [RecipeViewSet.shopping_cart], for the two
    methods the action accepts. *)
Definition favorite (request_method : method) (request_user : User) (pk : Z)
  : M Response :=
  recipe <- Orm.get_Recipe_or_404 pk ;;
  if is_POST request_method
  then AddRemoveMixin.add Favorite RecipeShortSerializer request_user recipe
  else AddRemoveMixin.remove Favorite request_user recipe.

Definition shopping_cart (request_method : method) (request_user : User)
    (pk : Z) : M Response :=
  recipe <- Orm.get_Recipe_or_404 pk ;;
  if is_POST request_method
  then AddRemoveMixin.add ShoppingCart RecipeShortSerializer request_user recipe
  else AddRemoveMixin.remove ShoppingCart request_user recipe.

(** [request.user == author]: model instances are equal when their primary
    keys are. *)
Definition User_eqb (a b : User) : bool := user_pk a =? user_pk b.

(** [SubscriptionSerializer(author, context={'request': request}).data]:
    the rendering evaluates [is_subscribed] (one [exists()] on the
    subscriptions), [recipes] (the recipes of the author) and
    [recipes_count] (their count), in the order of [Meta.fields]. The
    rendered value is left uninterpreted. With [recipes_limit=0] the slice
    is empty and the second statement is not sent; no property below rests
    on these statements. *)
Definition SubscriptionSerializer_data (request_user author : User) : M data :=
  query (TRelation Subscription) (fun _ => tt) ;;
  query TRecipe (fun _ => tt) ;;
  query TRecipe (fun _ => tt) ;;
  ret (SubscriptionData author).

(** [UserViewSet.subscribe] *)
Definition subscribe (request_method : method) (request_user : User) (pk : Z)
  : M Response :=
  author <- Orm.get_User_or_404 pk ;;
  if User_eqb request_user author then
    ret (mkResponse (Errors "Нельзя подписаться на себя") HTTP_400_BAD_REQUEST)
  else if is_POST request_method then
    '(obj, created) <- Orm.get_or_create Subscription
                         (user_pk request_user) (user_pk author) ;;
    if negb created then
      ret (mkResponse (Errors "Вы уже подписаны") HTTP_400_BAD_REQUEST)
    else
      serializer_data <- SubscriptionSerializer_data request_user author ;;
      ret (mkResponse serializer_data HTTP_201_CREATED)
  else
    deleted <- Orm.filter_delete Subscription
                 (user_pk request_user) (user_pk author) ;;
    if deleted =? 0 then
      ret (mkResponse (Errors "Вы не подписаны") HTTP_400_BAD_REQUEST)
    else
      ret (mkResponse NoData HTTP_204_NO_CONTENT).

(** *** The shopping list *)

(** One row of the aggregation query: the two grouping columns and the
    annotation [total]. *)
Record item : Type := mkItem {
  ingredient__name : string;
  ingredient__measurement_unit : string;
  total : Z }.

(** [RecipeIngredient.objects.filter(recipe__in_shopping_cart__user=user)]
    with the columns the query reads: the inner join of the association rows
    with their recipe, the cart entries of [user] for that recipe, and their
    ingredient. An association row is repeated once per matching cart
    entry. *)
Definition cart_rows (user : User) (db : DB) : list (string * string * Z) :=
  flat_map (fun ri =>
    flat_map (fun recipe =>
      flat_map (fun entry =>
        flat_map (fun ingredient =>
          [(ingredient_name ingredient, measurement_unit ingredient,
            ri_amount ri)])
          (filter (fun i => ingredient_pk i =? ri_ingredient ri)
             (Ingredient_objects db)))
        (filter (fun e => (rel_target e =? recipe_pk recipe)
                          && (rel_user e =? user_pk user))
           (rows (ShoppingCart_objects db))))
      (filter (fun r => recipe_pk r =? ri_recipe ri) (Recipe_objects db)))
    (rows (RecipeIngredient_objects db)).

Definition same_group (name unit : string) (it : item) : bool :=
  (String.eqb (ingredient__name it) name
   && String.eqb (ingredient__measurement_unit it) unit)%bool.

(** [GROUP BY name, measurement_unit] with [SUM(amount)]: a row joins the
    group of its (name, unit) pair or opens a new one. This computes the
    groups; the order in which the database returns them is applied by
    [download_shopping_cart]. *)
Fixpoint add_to_group (name unit : string) (amount : Z) (groups : list item)
  : list item :=
  match groups with
  | [] => [mkItem name unit amount]
  | g :: rest =>
      if same_group name unit g
      then mkItem (ingredient__name g) (ingredient__measurement_unit g)
             (total g + amount) :: rest
      else g :: add_to_group name unit amount rest
  end.

Definition annotate_total (joined : list (string * string * Z)) : list item :=
  fold_left (fun groups '(name, unit, amount) =>
               add_to_group name unit amount groups)
    joined [].

Definition LF : string := String "010"%char EmptyString.

(** [sep.join(parts)] *)
Fixpoint join (sep : string) (parts : list string) : string :=
  match parts with
  | [] => ""
  | [p] => p
  | p :: rest => p ++ sep ++ join sep rest
  end.

Record HttpResponse : Type := mkHttpResponse {
  content : string;
  content_type : string;
  Content_Disposition : string }.

Definition header : string := "Список покупок:" ++ LF.

Definition line (it : item) : string :=
  "- " ++ ingredient__name it ++ " (" ++ ingredient__measurement_unit it
  ++ ") — " ++ ShortLinks.str (total it).

(** [response['Content-Disposition'] = value]: the response converts the
    value of a header to latin-1. A value with a line break is refused with
    [BadHeaderError]; a value that latin-1 cannot encode is replaced by its
    MIME encoding. *)
Definition is_line_break (c : ascii) : bool :=
  (Ascii.eqb c "010" || Ascii.eqb c "013")%bool.

Fixpoint has_line_break (value : string) : bool :=
  match value with
  | EmptyString => false
  | String c rest => (is_line_break c || has_line_break rest)%bool
  end.

(** [value.encode('latin-1')] succeeds when every code point is below 256:
    in the UTF-8 bytes, a byte below 128, or one of the lead bytes 194 and
    195 followed by its continuation byte. *)
Fixpoint latin1 (value : string) : bool :=
  match value with
  | EmptyString => true
  | String c rest =>
      let b := Z.of_N (N_of_ascii c) in
      if b <? 128 then latin1 rest
      else if (b =? 194) || (b =? 195) then
        match rest with
        | EmptyString => false
        | String c' rest' =>
            let b' := Z.of_N (N_of_ascii c') in
            (128 <=? b') && (b' <? 192) && latin1 rest'
        end
      else false
  end.

Section Response.
(** Two things the sources do not fix. [order] is the order in which the
    database returns the groups of a [GROUP BY] that has no [ORDER BY]; the
    properties that depend on it assume that it permutes its argument.
    [mime_encode] is [Header(value, 'utf-8', maxlinelen=sys.maxsize).encode()]
    of Python's [email.header]. *)
Variable order : list item -> list item.
Variable mime_encode : string -> string.

Definition convert_to_charset (value : string) : outcome string :=
  if has_line_break value then Raise ValueError
  else if latin1 value then Ok value
  else Ok (mime_encode value).

(** [RecipeViewSet.download_shopping_cart] *)
Definition download_shopping_cart (request_user : User) : M HttpResponse :=
  ingredients <- query_join
                   [TRecipeIngredient; TRecipe; TRelation ShoppingCart;
                    TIngredient]
                   (fun db =>
                      order (annotate_total (cart_rows request_user db))) ;;
  let content := ([header] ++ map line ingredients)%list in
  content_disposition <- lift (convert_to_charset
                                 ("attachment; filename="
                                  ++ username request_user
                                  ++ "_shopping_list.txt")) ;;
  ret (mkHttpResponse (join LF content) "text/plain" content_disposition).

End Response.

End Views.

(** ** api/serializers.py: RecipeSerializer.update *)

Module RecipeSerializer.

(** One validated entry of the [ingredients] field: [{'id': ..., 'amount': ...}]. *)
Record ingredient_item : Type := mkIngredientItem { item_id : Z; item_amount : Z }.

(** [validated_data]: every key may be absent (a partial update). [tags]
    holds the primary keys of the [Tag] instances the field resolved. *)
Record validated_data : Type := mkValidated {
  vd_name : option string;
  vd_text : option string;
  vd_cooking_time : option Z;
  vd_image : option string;
  vd_tags : option (list Z);
  vd_recipeingredient_set : option (list ingredient_item) }.

Definition setattr {A} (new : option A) (old : A) : A :=
  match new with Some v => v | None => old end.

(** [instance.save()]: update the row with the instance's primary key, or
    insert the instance when there is no such row. *)
Definition save (instance : Recipe) : M unit :=
  execute (Update TRecipe) (fun db =>
    let same r := recipe_pk r =? recipe_pk instance in
    set_Recipe_objects
      (if existsb same (Recipe_objects db)
       then map (fun r => if same r then instance else r) (Recipe_objects db)
       else Recipe_objects db ++ [instance])
      db).

(** [super().update(instance, validated_data)], called once the two related
    fields are popped: set the remaining attributes and save. *)
Definition super_update (instance : Recipe) (vd : validated_data) : M Recipe :=
  let instance' :=
    mkRecipe (recipe_pk instance)
      (setattr (vd_name vd) (recipe_name instance))
      (setattr (vd_text vd) (text instance))
      (setattr (vd_cooking_time vd) (cooking_time instance))
      (setattr (vd_image vd) (image instance))
      (author instance) in
  save instance' ;;
  ret instance'.

Definition mem (x : Z) (l : list Z) : bool := existsb (Z.eqb x) l.

Fixpoint dedup (l : list Z) : list Z :=
  match l with
  | [] => []
  | x :: rest => x :: filter (fun y => negb (y =? x)) (dedup rest)
  end.

(** Rows numbered from the table's next primary key. *)
Fixpoint number {A R} (mk : Z -> A -> R) (pk : Z) (l : list A) : list R :=
  match l with
  | [] => []
  | a :: rest => mk pk a :: number mk (pk + 1) rest
  end.

Section Database.
(** Two things the sources do not fix. [amount_max] is the largest value the
    [amount] column holds (2147483647 for an [integer] of PostgreSQL,
    9223372036854775807 for SQLite): the database settings are not among the
    sources. [set_order] is the order in which Python iterates over a [set]
    of tag keys; the properties that depend on it assume that it permutes
    its argument. *)
Variable amount_max : Z.
Variable set_order : list Z -> list Z.

(** [instance.tags.set(tags_data)]: the rows of tags no longer listed are
    deleted, the rows of listed tags are kept, and one row is inserted for
    each listed tag that had none, in the iteration order of the set of the
    new keys. Nothing is issued for an empty deletion or insertion. Before
    the insert Django reads the rows once more on a database that cannot
    ignore conflicts; that read changes nothing and is not recorded, and no
    property below rests on the statements of [tags_set]. *)
Definition tags_set (instance : Recipe) (objs : list Z) : M unit :=
  old_ids <- query TRecipeTag (fun db =>
               map rt_tag (filter (fun r => rt_recipe r =? recipe_pk instance)
                             (rows (RecipeTag_objects db)))) ;;
  let stale := filter (fun t => negb (mem t objs)) old_ids in
  let new_objs := dedup (filter (fun t => negb (mem t old_ids)) objs) in
  (match stale with
   | [] => ret tt
   | _ :: _ =>
       execute (Delete TRecipeTag) (fun db =>
         let t := RecipeTag_objects db in
         set_RecipeTag_objects
           (mkTable
              (filter (fun r => negb ((rt_recipe r =? recipe_pk instance)
                                      && mem (rt_tag r) stale))
                 (rows t))
              (last_pk t))
           db)
   end) ;;
  match new_objs with
  | [] => ret tt
  | _ :: _ =>
      execute (Insert TRecipeTag) (fun db =>
        let t := RecipeTag_objects db in
        set_RecipeTag_objects
          (mkTable
             (rows t ++ number (fun pk tag => mkRecipeTag pk (recipe_pk instance) tag)
                          (last_pk t + 1) (set_order new_objs))
             (last_pk t + Z.of_nat (List.length (set_order new_objs))))
          db)
  end.

(** [instance.recipeingredient_set.all().delete()] *)
Definition recipeingredient_set_delete (instance : Recipe) : M unit :=
  execute (Delete TRecipeIngredient) (fun db =>
    let t := RecipeIngredient_objects db in
    set_RecipeIngredient_objects
      (mkTable
         (filter (fun r => negb (ri_recipe r =? recipe_pk instance)) (rows t))
         (last_pk t))
      db).

(** The constraints the database checks on the rows [bulk_create] inserts:
    [unique_together = ('recipe', 'ingredient')] against the stored rows and
    within the batch, the [ingredient] foreign key, and the non-negative
    [amount] of a [PositiveIntegerField]. *)
Definition same_pair (a b : RecipeIngredient) : bool :=
  (ri_recipe a =? ri_recipe b) && (ri_ingredient a =? ri_ingredient b).

Fixpoint pairs_distinct (l : list RecipeIngredient) : bool :=
  match l with
  | [] => true
  | r :: rest => negb (existsb (same_pair r) rest) && pairs_distinct rest
  end.

Definition insertable (db : DB) (new : list RecipeIngredient) : bool :=
  pairs_distinct new
  && forallb (fun n =>
       negb (existsb (same_pair n) (rows (RecipeIngredient_objects db)))
       && existsb (fun i => ingredient_pk i =? ri_ingredient n)
            (Ingredient_objects db)
       && (0 <=? ri_amount n))
     new.

(** The range of the [amount] column: a larger value cannot be stored. *)
Definition within_range (new : list RecipeIngredient) : bool :=
  forallb (fun n => ri_amount n <=? amount_max) new.

(** The list [[RecipeIngredient(recipe=instance, ingredient_id=item['id'],
    amount=item['amount']) for item in ingredients_data]], with the primary
    keys the insert assigns. *)
Definition new_rows (instance : Recipe) (pk : Z)
    (ingredients_data : list ingredient_item) : list RecipeIngredient :=
  number (fun pk it =>
            mkRecipeIngredient pk (recipe_pk instance) (item_id it)
              (item_amount it))
    pk ingredients_data.

(** [RecipeIngredient.objects.bulk_create([RecipeIngredient(recipe=instance,
    ingredient_id=item['id'], amount=item['amount']) for item in ...])]:
    one insert of the whole batch, refused as a whole with [DataError] when
    an amount is out of the range of its column and with [IntegrityError]
    when a constraint is broken; an empty batch issues nothing. *)
Definition bulk_create (instance : Recipe) (ingredients_data : list ingredient_item)
  : M (list RecipeIngredient) :=
  fun db =>
    match ingredients_data with
    | [] => (Ok [], db, [])
    | _ :: _ =>
        let t := RecipeIngredient_objects db in
        let new := new_rows instance (last_pk t + 1) ingredients_data in
        if negb (within_range new) then
          (Raise DataError, db, [Insert TRecipeIngredient])
        else if insertable db new then
          (Ok new,
           set_RecipeIngredient_objects
             (mkTable (rows t ++ new)
                (last_pk t + Z.of_nat (List.length new)))
             db,
           [Insert TRecipeIngredient])
        else (Raise IntegrityError, db, [Insert TRecipeIngredient])
    end.

Definition update (instance : Recipe) (vd : validated_data) : M Recipe :=
  let ingredients_data := vd_recipeingredient_set vd in
  let tags_data := vd_tags vd in
  instance <- super_update instance vd ;;
  (match tags_data with
   | Some tags => tags_set instance tags
   | None => ret tt
   end) ;;
  (match ingredients_data with
   | Some items =>
       recipeingredient_set_delete instance ;;
       _ <- bulk_create instance items ;;
       ret tt
   | None => ret tt
   end) ;;
  ret instance.

End Database.

(** The stored ingredient associations of the recipe, the rows behind
    [instance.recipeingredient_set], as (ingredient id, amount) pairs listed
    by primary key. A query without [order_by] returns these rows in an
    order of the database's choice, so what is said of them is said up to
    their order. *)
Definition recipeingredient_set (instance : Recipe) (db : DB)
  : list (Z * Z) :=
  map (fun r => (ri_ingredient r, ri_amount r))
    (filter (fun r => ri_recipe r =? recipe_pk instance)
       (rows (RecipeIngredient_objects db))).

(** The same pairs, read from the validated [ingredients] entries. *)
Definition pairs (ingredients_data : list ingredient_item) : list (Z * Z) :=
  map (fun it => (item_id it, item_amount it)) ingredients_data.

End RecipeSerializer.

(** ** Reading the result of the aggregation *)

Module Aggregation.
Import Views.

(** The grouping columns of a result row, the total recorded for a (name,
    unit) pair, and the sum of the amounts of the joined rows of a pair. *)
Definition key (it : item) : string * string :=
  (ingredient__name it, ingredient__measurement_unit it).

Fixpoint lookup (name unit : string) (groups : list item) : option Z :=
  match groups with
  | [] => None
  | g :: rest =>
      if same_group name unit g then Some (total g) else lookup name unit rest
  end.

Definition in_group (name unit : string) (row : string * string * Z) : bool :=
  let '(n, u, _) := row in (String.eqb n name && String.eqb u unit)%bool.

Definition group_total (name unit : string)
    (joined : list (string * string * Z)) : Z :=
  fold_right Z.add 0 (map snd (filter (in_group name unit) joined)).



End Aggregation.

(** ** The relation actions as a transition system *)

Module Api.

(** The three routed actions that add or remove a relation record, with the
    authenticated user and the primary key of the URL. *)
Inductive request : Type :=
| favorite (request_method : method) (request_user : User) (pk : Z)
| shopping_cart (request_method : method) (request_user : User) (pk : Z)
| subscribe (request_method : method) (request_user : User) (pk : Z).

Definition handle (r : request) : M Response :=
  match r with
  | favorite m u pk => Views.favorite m u pk
  | shopping_cart m u pk => Views.shopping_cart m u pk
  | subscribe m u pk => Views.subscribe m u pk
  end.

(** The outcome, the database afterwards and the statements of a
    computation started on [db]. *)
Definition result {A} (m : M A) (db : DB) : outcome A := fst (fst (m db)).
Definition after {A} (m : M A) (db : DB) : DB := snd (fst (m db)).
Definition statements {A} (m : M A) (db : DB) : list access := snd (m db).

Definition step (db : DB) (r : request) : DB := after (handle r) db.

(** A store in which no relation was recorded yet. *)
Definition fresh (db : DB) : Prop :=
  forall model, rows (objects model db) = [].

Inductive reachable : DB -> Prop :=
| reachable_fresh db : fresh db -> reachable db
| reachable_step db r : reachable db -> reachable (step db r).

Definition run (db : DB) (requests : list request) : DB :=
  fold_left step requests db.

(** The number of records of a relation for a (subject, target) pair. *)
Definition count (model : Model) (user target : Z) (db : DB) : nat :=
  List.length (filter (Orm.matches user target) (rows (objects model db))).

(** [unique_together] on a relation table. *)
Definition unique_together (model : Model) (db : DB) : Prop :=
  forall user target, (count model user target db <= 1)%nat.

Definition no_self_subscription (db : DB) : Prop :=
  forall r, In r (rows (Subscription_objects db)) -> rel_user r <> rel_target r.

End Api.

(** ** Sample data *)

Module Sample.

Definition empty {R} : Table R := mkTable [] 0.

Definition alice : User := mkUser 1 "alice".
Definition bob : User := mkUser 2 "bob".

Definition flour : Ingredient := mkIngredient 1 "Мука" "г".
Definition milk : Ingredient := mkIngredient 2 "Молоко" "мл".

Definition pancakes : Recipe := mkRecipe 1 "Блины" "..." 30 "recipes/1.png" 1.
Definition bread : Recipe := mkRecipe 2 "Хлеб" "..." 90 "recipes/2.png" 2.

(** Two users, two recipes that both use flour (100 and 50), the first one
    also milk; no relation recorded. *)
Definition db0 : DB :=
  mkDB [alice; bob] [pancakes; bread] [flour; milk]
    empty
    (mkTable [mkRecipeIngredient 1 1 1 100; mkRecipeIngredient 2 1 2 200;
              mkRecipeIngredient 3 2 1 50] 3)
    empty empty empty.

(** [db0] after alice put both recipes in her cart. *)
Definition db_cart : DB :=
  Api.step (Api.step db0 (Api.shopping_cart POST alice 1))
    (Api.shopping_cart POST alice 2).


(** Recipe 1 with the single ingredient 1 in amount 2, and the validated
    data of an update that lists ingredient 2 in amount 3 and nothing else. *)
Definition db_a2 : DB :=
  mkDB [alice; bob] [pancakes; bread] [flour; milk]
    empty
    (mkTable [mkRecipeIngredient 1 1 1 2; mkRecipeIngredient 2 2 1 50] 2)
    empty empty empty.

Definition to_b3 : RecipeSerializer.validated_data :=
  RecipeSerializer.mkValidated None None None None None
    (Some [RecipeSerializer.mkIngredientItem 2 3]).

(** [db0] after a mix of repeated, refused and undone requests. *)
Definition db_busy : DB :=
  Api.run db0
    [Api.favorite POST alice 1; Api.favorite POST alice 1;
     Api.subscribe POST alice 1; Api.subscribe POST alice 2;
     Api.subscribe POST alice 2; Api.subscribe POST bob 1;
     Api.shopping_cart POST bob 2; Api.shopping_cart DELETE bob 2;
     Api.shopping_cart DELETE bob 2; Api.favorite POST bob 7].

End Sample.

(** ** api/serializers.py: the computed fields *)

Module Fields.

(** The value of a Python expression that is [None] or a [bool]. *)
Inductive pyvalue : Type := PyNone | PyBool (b : bool).

(** [model.objects.filter(user=..., <target>=...).exists()] *)
Definition filter_exists (model : Model) (user target : Z) : M bool :=
  query (TRelation model)
    (fun db => existsb (Orm.matches user target) (rows (objects model db))).

(** [self.context.get('request')] and its user: the outer [None] is a context
    without request, the inner [None] a request whose user is not
    authenticated. *)
Definition context_request : Type := option (option User).

(** [RecipeSerializer.get_is_favorited]: the value of
    [request and request.user.is_authenticated and <exists>]. *)
Definition get_is_favorited (request : context_request) (obj : Recipe)
  : M pyvalue :=
  match request with
  | None => ret PyNone
  | Some None => ret (PyBool false)
  | Some (Some user) =>
      b <- filter_exists Favorite (user_pk user) (recipe_pk obj) ;;
      ret (PyBool b)
  end.

(** [RecipeSerializer.get_is_in_shopping_cart] *)
Definition get_is_in_shopping_cart (request : context_request) (obj : Recipe)
  : M pyvalue :=
  match request with
  | None => ret PyNone
  | Some None => ret (PyBool false)
  | Some (Some user) =>
      b <- filter_exists ShoppingCart (user_pk user) (recipe_pk obj) ;;
      ret (PyBool b)
  end.

(** [UserSerializer.get_is_subscribed] *)
Definition get_is_subscribed (request : context_request) (obj : User)
  : M bool :=
  match request with
  | Some (Some user) =>
      filter_exists Subscription (user_pk user) (user_pk obj)
  | _ => ret false
  end.

End Fields.

(** ** Sums of amounts *)

Module Totals.

Fixpoint sum (l : list Z) : Z :=
  match l with
  | [] => 0
  | x :: rest => x + sum rest
  end.

End Totals.

(** ** The tags and the creation of a recipe *)

Module RecipeTags.

(** [instance.tags.all()], as the primary keys of the tags, listed in the
    order of the tag rows. The queryset has no [ORDER BY], so the database
    may return them in another order: only which tags are listed, and how
    often, is meaningful. *)
Definition tags_all (instance : Recipe) (db : DB) : list Z :=
  map rt_tag (filter (fun r => rt_recipe r =? recipe_pk instance)
                (rows (RecipeTag_objects db))).

End RecipeTags.

Module RecipeCreate.
Import RecipeSerializer.

(** [validated_data] of a creation, with the [author] that
    [perform_create] passes to [save]: every key is present. *)
Record created_data : Type := mkCreated {
  cd_name : string;
  cd_text : string;
  cd_cooking_time : Z;
  cd_image : string;
  cd_author : Z;
  cd_tags : list Z;
  cd_recipeingredient_set : list ingredient_item }.

(** [Recipe.objects.create] on the validated data. The table of recipes carries
    no key counter here, so [pk] stands for the key the database hands out;
    a key that is taken is refused, as a primary key is. *)
Definition Recipe_objects_create (pk : Z) (vd : created_data) : M Recipe :=
  fun db =>
    let recipe :=
      mkRecipe pk (cd_name vd) (cd_text vd) (cd_cooking_time vd)
        (cd_image vd) (cd_author vd) in
    if existsb (fun r => recipe_pk r =? pk) (Recipe_objects db)
    then (Raise IntegrityError, db, [Insert TRecipe])
    else (Ok recipe,
          set_Recipe_objects (Recipe_objects db ++ [recipe]) db,
          [Insert TRecipe]).

(** [RecipeSerializer.create], with [amount_max] and [set_order] as for
    [update]. *)
Definition create (amount_max : Z) (set_order : list Z -> list Z) (pk : Z)
    (vd : created_data) : M Recipe :=
  recipe <- Recipe_objects_create pk vd ;;
  tags_set set_order recipe (cd_tags vd) ;;
  _ <- bulk_create amount_max recipe (cd_recipeingredient_set vd) ;;
  ret recipe.

End RecipeCreate.

(** ** api/validators.py and RecipeSerializer.validate *)

Module Validators.

(** What a validation raises: [ValidationError(message)],
    [serializers.ValidationError({field: message})], or the [AttributeError]
    of calling [.get] on an entry that is not a dict. *)
Inductive error : Type :=
| ValidationError (message : string)
| FieldError (field message : string)
| AttributeError.

Inductive validation (A : Type) : Type :=
| Valid (value : A)
| Invalid (e : error).
Arguments Valid {A} value.
Arguments Invalid {A} e.

(** [set(l)]: the distinct elements of [l]. *)
Fixpoint pyset {A} (eqb : A -> A -> bool) (l : list A) : list A :=
  match l with
  | [] => []
  | x :: rest => x :: filter (fun y => negb (eqb y x)) (pyset eqb rest)
  end.

Section Values.
(** The values that can be keys of a tag or an ingredient in the request
    (hashable Python values), with their equality [==]. *)
Variable V : Type.
Variable eqb : V -> V -> bool.

(** An entry of the raw [ingredients] list: a dict, seen through
    [.get('id')] ([None] for a missing key), or something else. *)
Inductive entry : Type :=
| Dict (id : option V)
| NotDict.

Definition option_eqb (a b : option V) : bool :=
  match a, b with
  | Some x, Some y => eqb x y
  | None, None => true
  | _, _ => false
  end.

(** [[item.get('id') for item in value]]; [None] when an entry has no
    [.get]. *)
Fixpoint get_ids (value : list entry) : option (list (option V)) :=
  match value with
  | [] => Some []
  | Dict id :: rest =>
      match get_ids rest with
      | Some ids => Some (id :: ids)
      | None => None
      end
  | NotDict :: _ => None
  end.

Definition validate_ingredients (value : list entry)
  : validation (list entry) :=
  match value with
  | [] =>
      Invalid (ValidationError
                 "Рецепт должен содержать хотя бы один ингредиент.")
  | Dict _ :: _ =>
      match get_ids value with
      | None => Invalid AttributeError
      | Some ids =>
          if negb (Nat.eqb (List.length ids)
                     (List.length (pyset option_eqb ids)))
          then Invalid (ValidationError "Ингредиенты не должны повторяться.")
          else Valid value
      end
  | NotDict :: _ => Valid value
  end.

Definition validate_tags (value : list V) : validation (list V) :=
  match value with
  | [] => Invalid (ValidationError "Рецепт должен содержать хотя бы один тег.")
  | _ :: _ =>
      if negb (Nat.eqb (List.length value) (List.length (pyset eqb value)))
      then Invalid (ValidationError "Теги в рецепте не должны повторяться.")
      else Valid value
  end.

(** [RecipeSerializer.validate], on [self.initial_data.get('ingredients')]
    and [self.initial_data.get('tags')]. *)
Definition validate {D} (initial_ingredients : option (list entry))
    (initial_tags : option (list V)) (data : D) : validation D :=
  match initial_ingredients with
  | None => Invalid (FieldError "ingredients" "Поле обязательно")
  | Some ingredients =>
      match initial_tags with
      | None => Invalid (FieldError "tags" "Поле обязательно")
      | Some tags =>
          match validate_ingredients ingredients with
          | Invalid e => Invalid e
          | Valid _ =>
              match validate_tags tags with
              | Invalid e => Invalid e
              | Valid _ => Valid data
              end
          end
      end
  end.

End Values.

Arguments Dict {V} id.
Arguments NotDict {V}.

End Validators.

(** * Properties *)

(** ** The short-link codec *)

Section Codec.
Import ShortLinks.

Lemma getitem_in_range (rem : Z) :
  0 <= rem < 36 -> index ALPHABET (getitem ALPHABET rem) = Some rem.
Proof.
  intros H.
  rewrite <- (Z2Nat.id rem) at 2 by lia.
  assert (Hn : (Z.to_nat rem < 36)%nat) by lia.
  unfold getitem. generalize dependent (Z.to_nat rem). intros n Hn.
  do 36 (destruct n as [|n]; [reflexivity|]).
  lia.
Qed.

Lemma getitem_zero_only (rem : Z) :
  0 < rem < 36 -> getitem ALPHABET rem <> "0"%char.
Proof.
  intros H E.
  assert (G := getitem_in_range rem ltac:(lia)).
  rewrite E in G. cbn in G. injection G as G. lia.
Qed.

Lemma decode_loop_app (a b : string) (r : Z) :
  decode_loop (a ++ b) r =
  match decode_loop a r with
  | Ok v => decode_loop b v
  | Raise e => Raise e
  end.
Proof.
  revert r. induction a as [|c a IH]; intros r; cbn [append decode_loop].
  - reflexivity.
  - destruct (index ALPHABET c); [apply IH | reflexivity].
Qed.

Lemma decode_loop_zeros (k : nat) (r : Z) :
  decode_loop (zeros k) r = Ok (r * 36 ^ Z.of_nat k).
Proof.
  revert r. induction k as [|k IH]; intros r.
  - cbn. f_equal. lia.
  - change (decode_loop (zeros (S k)) r)
      with (decode_loop (zeros k) (r * 36 + 0)).
    rewrite IH. f_equal. rewrite Nat2Z.inj_succ, Z.pow_succ_r by lia. lia.
Qed.

Lemma append_assoc (a b c : string) : (a ++ b) ++ c = a ++ (b ++ c).
Proof. induction a as [|x a IH]; cbn; [reflexivity | now rewrite IH]. Qed.

Lemma length_append (a b : string) :
  String.length (a ++ b) = (String.length a + String.length b)%nat.
Proof. induction a as [|x a IH]; cbn; [reflexivity | now rewrite IH]. Qed.

Lemma length_zeros (k : nat) : String.length (zeros k) = k.
Proof. induction k; cbn; congruence. Qed.

(** What the loop of [encode] leaves in [result]: the digits of [num], most
    significant first, in front of what was there. *)
Lemma encode_loop_digits (fuel : nat) :
  forall num result s,
    0 <= num ->
    encode_loop fuel num result = Some s ->
    exists digits,
      s = digits ++ result
      /\ (forall r, decode_loop digits r
                    = Ok (r * 36 ^ Z.of_nat (String.length digits) + num))
      /\ (num = 0 -> digits = "")
      /\ (forall c rest, digits = String c rest -> c <> "0"%char).
Proof.
  induction fuel as [|fuel IH]; intros num result s Hnum E; [discriminate|].
  cbn [encode_loop] in E.
  destruct (Z.eqb_spec num 0) as [->|Hnz].
  - injection E as <-. exists "". cbn. repeat split; try congruence.
    intros r. f_equal. lia.
  - pose proof (Z_div_mod num 36 eq_refl) as Hdm.
    destruct (Z.div_eucl num 36) as [q rem]. destruct Hdm as [Hnq Hrem].
    assert (Hq : 0 <= q) by lia.
    destruct (IH q _ s Hq E) as (d & -> & Hdec & Hzero & Hlead).
    exists (d ++ String (getitem ALPHABET rem) "").
    repeat split.
    + now rewrite append_assoc.
    + intros r. rewrite decode_loop_app, Hdec. cbn [decode_loop].
      rewrite getitem_in_range by lia. f_equal.
      rewrite length_append. cbn [String.length].
      rewrite Nat2Z.inj_add, Z.pow_add_r by lia. cbn. lia.
    + intros ->. lia.
    + intros c rest Hd. destruct d as [|c' d'].
      * cbn in Hd. injection Hd as <- _.
        assert (q = 0) by (destruct (Z.eq_dec q 0) as [?|N]; [assumption|];
                           specialize (Hdec 0); cbn in Hdec; injection Hdec; lia).
        apply getitem_zero_only. lia.
      * cbn in Hd. injection Hd as <- _. eapply Hlead. reflexivity.
Qed.

(** The loop ends on every non-negative [num], given one unit of fuel more
    than the number of bits of [num]. *)
Lemma encode_loop_total (fuel : nat) :
  forall num result,
    0 <= num < 2 ^ Z.of_nat fuel ->
    exists s, encode_loop (S fuel) num result = Some s.
Proof.
  induction fuel as [|fuel IH]; intros num result H.
  - cbn in H. assert (num = 0) as -> by lia. now exists result.
  - cbn [encode_loop]. fold encode_loop.
    destruct (Z.eqb_spec num 0) as [->|Hnz]; [now exists result|].
    pose proof (Z_div_mod num 36 eq_refl) as Hdm.
    destruct (Z.div_eucl num 36) as [q rem]. destruct Hdm as [Hnq Hrem].
    apply IH. rewrite Nat2Z.inj_succ, Z.pow_succ_r in H by lia. lia.
Qed.

Lemma encode_budget_enough (num : Z) :
  0 <= num -> exists s, encode_loop (encode_budget num) num "" = Some s.
Proof.
  intros H. unfold encode_budget. apply encode_loop_total.
  rewrite Nat2Z.inj_succ, Z2Nat.id by apply Z.log2_nonneg.
  destruct (Z.eq_dec num 0) as [->|N]; [cbn; lia|].
  pose proof (Z.log2_spec num ltac:(lia)). lia.
Qed.

(** More fuel does not change a result, and on a negative [num] the loop
    never ends: Python's floor division keeps [num] negative. *)
Lemma encode_loop_more_fuel (fuel : nat) :
  forall extra num result s,
    encode_loop fuel num result = Some s ->
    encode_loop (fuel + extra) num result = Some s.
Proof.
  induction fuel as [|fuel IH]; intros extra num result s E; [discriminate|].
  cbn [encode_loop Nat.add] in *.
  destruct (num =? 0); [assumption|].
  destruct (Z.div_eucl num 36) as [q rem]. now apply IH.
Qed.

Lemma encode_loop_negative (fuel : nat) :
  forall num result, num < 0 -> encode_loop fuel num result = None.
Proof.
  induction fuel as [|fuel IH]; intros num result H; [reflexivity|].
  cbn [encode_loop].
  destruct (Z.eqb_spec num 0) as [->|Hnz]; [lia|].
  pose proof (Z_div_mod num 36 eq_refl) as Hdm.
  destruct (Z.div_eucl num 36) as [q rem]. destruct Hdm as [Hnq Hrem].
  apply IH. lia.
Qed.

Lemma length_zfill (width : nat) (s : string) :
  String.length (zfill width s) = Nat.max width (String.length s).
Proof.
  unfold zfill. destruct (Nat.leb_spec width (String.length s)) as [H|H].
  - lia.
  - destruct s as [|c rest].
    + rewrite length_zeros. cbn. lia.
    + destruct (Ascii.eqb c "+" || Ascii.eqb c "-")%bool; cbn [String.length];
        rewrite length_append, length_zeros; cbn [String.length] in *; lia.
Qed.

(** On a string that does not start with a sign, [zfill] only adds zeros in
    front. *)
Lemma zfill_unsigned (width : nat) (s : string) :
  (forall c rest, s = String c rest -> index ALPHABET c <> None) ->
  zfill width s = zeros (width - String.length s) ++ s.
Proof.
  intros H. unfold zfill.
  destruct (Nat.leb_spec width (String.length s)) as [L|L].
  - replace (width - String.length s)%nat with O by lia. reflexivity.
  - destruct s as [|c rest].
    + clear. induction (width - String.length "")%nat; cbn; congruence.
    + specialize (H c rest eq_refl).
      destruct (Ascii.eqb_spec c "+") as [->|]; [now cbn in H|].
      destruct (Ascii.eqb_spec c "-") as [->|]; [now cbn in H|].
      reflexivity.
Qed.

(** [encode] on a non-negative number: the digits without leading zero (none
    for 0), padded with zeros to three characters. *)
Lemma encode_digits (n : Z) :
  0 <= n ->
  exists digits,
    encode n = Some (zeros (3 - String.length digits) ++ digits)
    /\ decode digits = Ok n
    /\ (forall c rest, digits = String c rest -> c <> "0"%char).
Proof.
  intros H. unfold encode, encode_fuel.
  destruct (Z.eqb_spec n 0) as [->|Hnz].
  - exists "". repeat split; congruence.
  - destruct (encode_budget_enough n H) as [s E]. rewrite E. cbn [option_map].
    destruct (encode_loop_digits _ _ _ _ H E) as (d & -> & Hdec & _ & Hlead).
    replace (d ++ "") with d in *
      by (clear; induction d; cbn; congruence).
    exists d. split; [|split].
    + f_equal. apply zfill_unsigned. intros c rest ->.
      specialize (Hdec 0). cbn [decode_loop] in Hdec.
      destruct (index ALPHABET c); congruence.
    + unfold decode. rewrite Hdec. f_equal; lia.
    + exact Hlead.
Qed.

(** C1: for every non-negative integer [n], [encode n] returns a code and
    [decode] maps that code back to [n]. *)
Theorem decode_encode (n : Z) :
  0 <= n -> exists code, encode n = Some code /\ decode code = Ok n.
Proof.
  intros H. destruct (encode_digits n H) as (d & E & D & _).
  eexists. split; [exact E|].
  unfold decode in *. rewrite decode_loop_app, decode_loop_zeros.
  exact D.
Qed.

Lemma decode_encode_witness :
  0 <= 2024 /\ exists code, encode 2024 = Some code /\ decode code = Ok 2024.
Proof. split; [lia | apply (decode_encode 2024); lia]. Defined.

End Codec.

Section CodecShape.
Import ShortLinks.

(** C8: the three sample codes and the sample decoding, and for every
    non-negative [n] the code is the digits of [n] (no leading zero, none
    for 0) with zeros added on the left up to three characters, so it is at
    least three characters long. *)
Theorem encode_samples_and_width :
  encode 0 = Some "000"
  /\ encode 35 = Some "00z"
  /\ encode 36 = Some "010"
  /\ decode "000" = Ok 0
  /\ forall n, 0 <= n ->
       exists digits code,
         encode n = Some code
         /\ code = zeros (3 - String.length digits) ++ digits
         /\ (3 <= String.length code)%nat
         /\ decode digits = Ok n
         /\ (forall c rest, digits = String c rest -> c <> "0"%char).
Proof.
  repeat (split; [reflexivity|]).
  intros n H. destruct (encode_digits n H) as (d & E & D & L).
  exists d, (zeros (3 - String.length d) ++ d).
  split; [exact E|]. split; [reflexivity|]. split; [|split; assumption].
  rewrite length_append, length_zeros. lia.
Qed.

Lemma encode_samples_and_width_witness :
  0 <= 1296 /\
  exists digits code,
    encode 1296 = Some code
    /\ code = zeros (3 - String.length digits) ++ digits
    /\ (3 <= String.length code)%nat
    /\ decode digits = Ok 1296
    /\ (forall c rest, digits = String c rest -> c <> "0"%char).
Proof.
  split; [lia|].
  apply (proj2 (proj2 (proj2 (proj2 encode_samples_and_width))) 1296). lia.
Defined.

(** [decode] stops with [ValueError] at the first character that is not in
    the alphabet, whatever was accumulated. *)
Lemma decode_loop_invalid (code : string) :
  forall result,
    (exists c, In c (list_ascii_of_string code) /\ index ALPHABET c = None) ->
    decode_loop code result = Raise ValueError.
Proof.
  induction code as [|c code IH]; intros result (x & Hin & Hx).
  - destruct Hin.
  - cbn [decode_loop]. destruct (index ALPHABET c) as [i|] eqn:Ec.
    + apply IH. exists x. split; [|assumption].
      cbn in Hin. destruct Hin as [->|Hin]; [congruence | assumption].
    + reflexivity.
Qed.

Lemma decode_loop_valid (code : string) :
  forall result,
    (forall c, In c (list_ascii_of_string code) -> index ALPHABET c <> None) ->
    exists v, decode_loop code result = Ok v.
Proof.
  induction code as [|c code IH]; intros result H.
  - now exists result.
  - cbn [decode_loop]. destruct (index ALPHABET c) as [i|] eqn:Ec.
    + apply IH. intros x Hx. apply H. now right.
    + exfalso. apply (H c); [now left | assumption].
Qed.

(** The resolver turns both handled exceptions into the same [Http404]. *)
Lemma redirect_short_link_invalid (base_url short_code : string) (db : DB) :
  decode short_code = Raise ValueError ->
  redirect_short_link base_url short_code db
  = (Raise (Http404 "Короткая ссылка не найдена"), db, []).
Proof.
  intros E. unfold redirect_short_link, try_except, bind, lift.
  rewrite E. reflexivity.
Qed.

(** An unknown recipe gets the same answer. *)
Lemma redirect_short_link_unknown (base_url short_code : string) (db : DB)
    (recipe_id : Z) :
  decode short_code = Ok recipe_id ->
  find (fun r => recipe_pk r =? recipe_id) (Recipe_objects db) = None ->
  redirect_short_link base_url short_code db
  = (Raise (Http404 "Короткая ссылка не найдена"), db, [Select TRecipe]).
Proof.
  intros D F. unfold redirect_short_link, Orm.get_Recipe.
  unfold try_except, bind, lift, query, raise.
  rewrite D, F. reflexivity.
Qed.

(** C9: on a string with a character outside the alphabet [decode] raises
    [ValueError] and returns no value, and [redirect_short_link] raises
    [Http404] with the not-found message before any query: the same outcome
    as for a well-formed code of a recipe that does not exist. *)
Theorem decode_invalid_is_not_found (short_code : string) :
  (exists c, In c (list_ascii_of_string short_code)
             /\ index ALPHABET c = None) ->
  decode short_code = Raise ValueError
  /\ (forall base_url db,
        redirect_short_link base_url short_code db
        = (Raise (Http404 "Короткая ссылка не найдена"), db, []))
  /\ (forall base_url db unknown recipe_id,
        decode unknown = Ok recipe_id ->
        find (fun r => recipe_pk r =? recipe_id) (Recipe_objects db) = None ->
        Api.result (redirect_short_link base_url unknown) db
        = Api.result (redirect_short_link base_url short_code) db).
Proof.
  intros H.
  assert (E : decode short_code = Raise ValueError)
    by (apply decode_loop_invalid; assumption).
  split; [exact E|]. split.
  - intros. now apply redirect_short_link_invalid.
  - intros base_url db unknown recipe_id D F. unfold Api.result.
    rewrite (redirect_short_link_invalid _ short_code db E).
    rewrite (redirect_short_link_unknown _ _ _ _ D F). reflexivity.
Qed.

Lemma decode_invalid_is_not_found_witness :
  (exists c, In c (list_ascii_of_string "0A1") /\ index ALPHABET c = None)
  /\ decode "0A1" = Raise ValueError
  /\ redirect_short_link "http://localhost" "0A1" Sample.db0
     = (Raise (Http404 "Короткая ссылка не найдена"), Sample.db0, [])
  /\ Api.result (redirect_short_link "http://localhost" "zzz") Sample.db0
     = Api.result (redirect_short_link "http://localhost" "0A1") Sample.db0.
Proof.
  assert (H : exists c, In c (list_ascii_of_string "0A1")
                        /\ index ALPHABET c = None)
    by (exists "A"%char; split; [cbn; tauto | reflexivity]).
  destruct (decode_invalid_is_not_found "0A1" H) as (D & R & U).
  split; [exact H|]. split; [exact D|]. split; [apply R|].
  apply (U "http://localhost" Sample.db0 "zzz" 46655); reflexivity.
Defined.

(** C10: [decode] checks no length. It succeeds on every string over the
    alphabet, the empty string included (value 0), and on strings of one or
    two characters, although every code [encode] returns has at least three
    characters. *)
Theorem decode_checks_no_length :
  (forall code,
     (forall c, In c (list_ascii_of_string code) -> index ALPHABET c <> None) ->
     exists v, decode code = Ok v)
  /\ decode "" = Ok 0
  /\ decode "z" = Ok 35
  /\ decode "0z" = Ok 35
  /\ (forall n code, encode n = Some code -> (3 <= String.length code)%nat).
Proof.
  split; [intros code H; now apply decode_loop_valid|].
  repeat (split; [reflexivity|]).
  intros n code. unfold encode, encode_fuel.
  destruct (n =? 0).
  - intros [= <-]. cbn. lia.
  - destruct (encode_loop _ n ""); cbn [option_map]; [|discriminate].
    intros [= <-]. rewrite length_zfill. lia.
Qed.

Lemma decode_checks_no_length_witness :
  (exists v, decode "7" = Ok v)
  /\ (3 <= String.length "00a")%nat.
Proof.
  split.
  - apply (proj1 decode_checks_no_length "7").
    intros c [<-|[]]. discriminate.
  - apply (proj2 (proj2 (proj2 (proj2 decode_checks_no_length))) 10 "00a").
    reflexivity.
Defined.

End CodecShape.


(** ** The relation registry *)

Section Tables.

Lemma objects_set_objects (model model' : Model) (t : Table Relation) (db : DB) :
  objects model' (set_objects model t db)
  = match model, model' with
    | Favorite, Favorite | ShoppingCart, ShoppingCart
    | Subscription, Subscription => t
    | _, _ => objects model' db
    end.
Proof. destruct model, model'; reflexivity. Qed.

Lemma objects_set_same (model : Model) (t : Table Relation) (db : DB) :
  objects model (set_objects model t db) = t.
Proof. destruct model; reflexivity. Qed.

Lemma set_objects_same (model : Model) (db : DB) :
  set_objects model (mkTable (rows (objects model db))
                       (last_pk (objects model db))) db = db.
Proof. destruct db as [? ? ? ? ? [] [] []], model; reflexivity. Qed.

Lemma filter_none {A} (f : A -> bool) (l : list A) :
  filter f l = [] -> existsb f l = false /\ filter (fun x => negb (f x)) l = l.
Proof.
  induction l as [|x l IH]; cbn; [split; reflexivity|].
  destruct (f x); [discriminate|]. intros E. cbn.
  destruct (IH E) as [-> ->]. split; reflexivity.
Qed.

Lemma length_filter_le {A} (f : A -> bool) (l : list A) :
  (List.length (filter f l) <= List.length l)%nat.
Proof. induction l as [|x l IH]; cbn; [lia|]. destruct (f x); cbn; lia. Qed.

Lemma length_filter_filter {A} (f g : A -> bool) (l : list A) :
  (List.length (filter f (filter g l)) <= List.length (filter f l))%nat.
Proof.
  induction l as [|x l IH]; cbn; [lia|].
  destruct (g x), (f x) eqn:E; cbn; rewrite ?E; cbn; lia.
Qed.

Lemma filter_negb_same {A} (f : A -> bool) (l : list A) :
  filter f (filter (fun x => negb (f x)) l) = [].
Proof.
  induction l as [|x l IH]; cbn; [reflexivity|].
  destruct (f x) eqn:E; cbn; rewrite ?E; assumption.
Qed.

Lemma matches_eq (user target : Z) (r : Relation) :
  Orm.matches user target r = true <-> rel_user r = user /\ rel_target r = target.
Proof. unfold Orm.matches. rewrite andb_true_iff, !Z.eqb_eq. tauto. Qed.

(** Deleting the records of one pair leaves those of every other pair. *)
Lemma filter_other_pair (user target user' target' : Z) (l : list Relation) :
  (user', target') <> (user, target) ->
  filter (Orm.matches user' target')
    (filter (fun r => negb (Orm.matches user target r)) l)
  = filter (Orm.matches user' target') l.
Proof.
  intros N. induction l as [|x l IH]; cbn; [reflexivity|].
  destruct (Orm.matches user target x) eqn:E; cbn.
  - destruct (Orm.matches user' target' x) eqn:E'; [|assumption].
    apply matches_eq in E, E'. exfalso. apply N.
    destruct E as [<- <-], E' as [<- <-]. reflexivity.
  - destruct (Orm.matches user' target' x); [f_equal|]; assumption.
Qed.

End Tables.

Section Registry.
Import Api.

(** [get_or_create], by the number of rows of the pair. *)
Lemma get_or_create_run (model : Model) (user target : Z) (db : DB) :
  Orm.get_or_create model user target db
  = let t := objects model db in
    match filter (Orm.matches user target) (rows t) with
    | [] =>
        let obj := mkRelation (last_pk t + 1) user target in
        (Ok (obj, true),
         set_objects model (mkTable (rows t ++ [obj]) (last_pk t + 1)) db,
         [Select (TRelation model); Insert (TRelation model)])
    | [obj] => (Ok (obj, false), db, [Select (TRelation model)])
    | _ :: _ :: _ => (Raise MultipleObjectsReturned, db, [Select (TRelation model)])
    end.
Proof.
  unfold Orm.get_or_create, Orm.get, Orm.create.
  unfold try_except, bind, query, raise, ret.
  cbv beta zeta.
  destruct (filter (Orm.matches user target) (rows (objects model db)))
    as [|obj [|obj' rest]] eqn:E; cbn.
  - apply filter_none in E. destruct E as [-> _]. reflexivity.
  - reflexivity.
  - reflexivity.
Qed.

Lemma add_run (model : Model) (serializer_class : Recipe -> data)
    (user : User) (recipe : Recipe) (db : DB) :
  AddRemoveMixin.add model serializer_class user recipe db
  = let t := objects model db in
    match filter (Orm.matches (user_pk user) (recipe_pk recipe)) (rows t) with
    | [] =>
        let obj := mkRelation (last_pk t + 1) (user_pk user) (recipe_pk recipe) in
        (Ok (mkResponse (serializer_class recipe) HTTP_201_CREATED),
         set_objects model (mkTable (rows t ++ [obj]) (last_pk t + 1)) db,
         [Select (TRelation model); Insert (TRelation model)])
    | [obj] =>
        (Ok (mkResponse (Errors "Рецепт уже добавлен") HTTP_400_BAD_REQUEST),
         db, [Select (TRelation model)])
    | _ :: _ :: _ =>
        (Raise MultipleObjectsReturned, db, [Select (TRelation model)])
    end.
Proof.
  unfold AddRemoveMixin.add, bind. rewrite get_or_create_run. cbv zeta.
  destruct (filter _ _) as [|obj [|obj' rest]]; reflexivity.
Qed.

Lemma filter_delete_run (model : Model) (user target : Z) (db : DB) :
  Orm.filter_delete model user target db
  = let t := objects model db in
    (Ok (Z.of_nat (count model user target db)),
     set_objects model
       (mkTable (filter (fun r => negb (Orm.matches user target r)) (rows t))
          (last_pk t)) db,
     [Delete (TRelation model)]).
Proof. reflexivity. Qed.

Lemma remove_run (model : Model) (user : User) (recipe : Recipe) (db : DB) :
  AddRemoveMixin.remove model user recipe db
  = let t := objects model db in
    (Ok (if (count model (user_pk user) (recipe_pk recipe) db =? 0)%nat
         then mkResponse (Errors "Рецепта нет") HTTP_400_BAD_REQUEST
         else mkResponse NoData HTTP_204_NO_CONTENT),
     set_objects model
       (mkTable
          (filter (fun r => negb (Orm.matches (user_pk user) (recipe_pk recipe) r))
             (rows t))
          (last_pk t)) db,
     [Delete (TRelation model)]).
Proof.
  unfold AddRemoveMixin.remove, bind. rewrite filter_delete_run. cbv zeta.
  destruct (count model (user_pk user) (recipe_pk recipe) db); reflexivity.
Qed.

End Registry.

Section RegistryContract.
Import Api.

Variable model : Model.
Variable serializer_class : Recipe -> data.
Variables (user : User) (recipe : Recipe).

Local Abbreviation add := (AddRemoveMixin.add model serializer_class user recipe).
Local Abbreviation remove := (AddRemoveMixin.remove model user recipe).
Local Abbreviation subject := (user_pk user).
Local Abbreviation target := (recipe_pk recipe).

(** C2: on a table that satisfies its [unique_together], [add] answers 400
    and leaves the database as it is when the pair has a record; when it has
    none, [add] appends exactly one record for the pair and answers 201 with
    the serialized recipe, after which the pair has one record, and a second
    [add] answers 400 and changes nothing, so the count stays 1. *)
Theorem add_relation_contract (db : DB) :
  unique_together model db ->
  ((0 < count model subject target db)%nat ->
     add db
     = (Ok (mkResponse (Errors "Рецепт уже добавлен") HTTP_400_BAD_REQUEST),
        db, [Select (TRelation model)]))
  /\ (count model subject target db = 0%nat ->
      let t := objects model db in
      let obj := mkRelation (last_pk t + 1) subject target in
      let db1 := set_objects model (mkTable (rows t ++ [obj]) (last_pk t + 1)) db in
      add db
      = (Ok (mkResponse (serializer_class recipe) HTTP_201_CREATED),
         db1, [Select (TRelation model); Insert (TRelation model)])
      /\ count model subject target db1 = 1%nat
      /\ add db1
         = (Ok (mkResponse (Errors "Рецепт уже добавлен") HTTP_400_BAD_REQUEST),
            db1, [Select (TRelation model)])
      /\ count model subject target (after add (after add db)) = 1%nat).
Proof.
  intros U. specialize (U subject target). unfold count in *.
  assert (Hadd := add_run model serializer_class user recipe).
  split.
  - intros P. rewrite Hadd. cbv zeta.
    destruct (filter _ _) as [|obj [|obj' rest]]; cbn in *; (lia || reflexivity).
  - intros Z0. cbv zeta.
    assert (E : filter (Orm.matches subject target) (rows (objects model db)) = [])
      by (destruct (filter _ _); [reflexivity | discriminate]).
    assert (E1 : filter (Orm.matches subject target)
                   (rows (objects model db)
                    ++ [mkRelation (last_pk (objects model db) + 1) subject target])
                 = [mkRelation (last_pk (objects model db) + 1) subject target]).
    { rewrite filter_app, E. cbn. unfold Orm.matches. cbn.
      now rewrite !Z.eqb_refl. }
    assert (A0 : add db
      = (Ok (mkResponse (serializer_class recipe) HTTP_201_CREATED),
         set_objects model
           (mkTable (rows (objects model db)
                     ++ [mkRelation (last_pk (objects model db) + 1) subject target])
              (last_pk (objects model db) + 1)) db,
         [Select (TRelation model); Insert (TRelation model)]))
      by (rewrite Hadd; cbv zeta; rewrite E; reflexivity).
    assert (A1 : add (set_objects model
           (mkTable (rows (objects model db)
                     ++ [mkRelation (last_pk (objects model db) + 1) subject target])
              (last_pk (objects model db) + 1)) db)
      = (Ok (mkResponse (Errors "Рецепт уже добавлен") HTTP_400_BAD_REQUEST),
         set_objects model
           (mkTable (rows (objects model db)
                     ++ [mkRelation (last_pk (objects model db) + 1) subject target])
              (last_pk (objects model db) + 1)) db,
         [Select (TRelation model)])).
    { rewrite Hadd. cbv zeta. rewrite objects_set_same. cbn [rows].
      rewrite E1. reflexivity. }
    split; [exact A0|]. split; [|split].
    + rewrite objects_set_same. cbn [rows]. now rewrite E1.
    + exact A1.
    + unfold after. rewrite A0. cbn [fst snd]. rewrite A1. cbn [fst snd].
      rewrite objects_set_same. cbn [rows]. now rewrite E1.
Qed.

(** C5: when the pair has a record, [remove] deletes the records of the pair
    and no other and answers 204 without content; when it has none, [remove]
    answers 400 and the database is unchanged. *)
Theorem remove_relation_contract (db : DB) :
  let t := objects model db in
  ((0 < count model subject target db)%nat ->
     remove db
     = (Ok (mkResponse NoData HTTP_204_NO_CONTENT),
        set_objects model
          (mkTable (filter (fun r => negb (Orm.matches subject target r)) (rows t))
             (last_pk t)) db,
        [Delete (TRelation model)])
     /\ count model subject target (after remove db) = 0%nat
     /\ (forall user' target',
           (user', target') <> (subject, target) ->
           filter (Orm.matches user' target')
             (rows (objects model (after remove db)))
           = filter (Orm.matches user' target') (rows t)))
  /\ (count model subject target db = 0%nat ->
      remove db
      = (Ok (mkResponse (Errors "Рецепта нет") HTTP_400_BAD_REQUEST),
         db, [Delete (TRelation model)])).
Proof.
  cbv zeta.
  assert (Hrem := remove_run model user recipe).
  split.
  - intros P.
    assert (R : remove db
     = (Ok (mkResponse NoData HTTP_204_NO_CONTENT),
        set_objects model
          (mkTable (filter (fun r => negb (Orm.matches subject target r))
                      (rows (objects model db)))
             (last_pk (objects model db))) db,
        [Delete (TRelation model)])).
    { rewrite Hrem. cbv zeta.
      destruct (count model subject target db); [lia | reflexivity]. }
    split; [exact R|]. unfold after. rewrite R. cbn [fst snd].
    unfold count. rewrite objects_set_same. cbn [rows]. split.
    + now rewrite filter_negb_same.
    + intros user' target' N. now apply filter_other_pair.
  - intros Z0. rewrite Hrem. cbv zeta. rewrite Z0. cbn [Nat.eqb].
    unfold count in Z0.
    assert (E : filter (Orm.matches subject target) (rows (objects model db)) = [])
      by (destruct (filter _ _); [reflexivity | discriminate]).
    apply filter_none in E. destruct E as [_ ->].
    now rewrite set_objects_same.
Qed.

End RegistryContract.

Section RegistryWitnesses.
Import Api Sample.

Lemma unique_together_short (model : Model) (db : DB) :
  (List.length (rows (objects model db)) <= 1)%nat -> unique_together model db.
Proof.
  intros H user target. unfold count.
  etransitivity; [apply length_filter_le | exact H].
Qed.

Lemma add_relation_contract_witness :
  let add := AddRemoveMixin.add Favorite RecipeShortSerializer alice pancakes in
  unique_together Favorite db0
  /\ count Favorite 1 1 db0 = 0%nat
  /\ result add db0 = Ok (mkResponse (RecipeShortData 1 "Блины" "recipes/1.png" 30) 201)
  /\ rows (Favorite_objects (after add db0)) = [mkRelation 1 1 1]
  /\ result add (after add db0)
     = Ok (mkResponse (Errors "Рецепт уже добавлен") 400)
  /\ count Favorite 1 1 (after add (after add db0)) = 1%nat.
Proof.
  cbv zeta.
  assert (U : unique_together Favorite db0)
    by (apply unique_together_short; cbn; lia).
  destruct (add_relation_contract Favorite RecipeShortSerializer alice pancakes
              db0 U) as [_ H].
  destruct (H eq_refl) as (A0 & C1 & A1 & C2).
  split; [exact U|]. split; [reflexivity|].
  unfold result, after. rewrite A0. cbn [fst snd].
  split; [reflexivity|]. split; [reflexivity|].
  rewrite A1. cbn [fst snd]. split; [reflexivity|]. exact C1.
Defined.

Lemma remove_relation_contract_witness :
  let remove := AddRemoveMixin.remove ShoppingCart alice pancakes in
  (0 < count ShoppingCart 1 1 db_cart)%nat
  /\ result remove db_cart = Ok (mkResponse NoData 204)
  /\ rows (ShoppingCart_objects (after remove db_cart)) = [mkRelation 2 1 2]
  /\ count ShoppingCart 1 1 (after remove db_cart) = 0%nat
  /\ remove db0
     = (Ok (mkResponse (Errors "Рецепта нет") 400), db0,
        [Delete (TRelation ShoppingCart)]).
Proof.
  cbv zeta.
  destruct (remove_relation_contract ShoppingCart alice pancakes db_cart)
    as [H _].
  assert (P : (0 < count ShoppingCart 1 1 db_cart)%nat) by (vm_compute; lia).
  destruct (H P) as (R & C & _).
  split; [exact P|]. unfold result, after in *. rewrite R. cbn [fst snd].
  split; [reflexivity|]. split; [reflexivity|]. split; [reflexivity|].
  apply (proj2 (remove_relation_contract ShoppingCart alice pancakes db0)).
  reflexivity.
Defined.

End RegistryWitnesses.

Section ViewsRun.
Import Api.

Lemma find_pk {A} (key : A -> Z) (pk : Z) (l : list A) (x : A) :
  find (fun a => key a =? pk) l = Some x -> key x = pk.
Proof. intros H. apply find_some in H. destruct H as [_ H]. lia. Qed.

Lemma find_present {A} (key : A -> Z) (l : list A) (x : A) :
  In x l -> exists y, find (fun a => key a =? key x) l = Some y.
Proof.
  intros H. destruct (find _ l) as [y|] eqn:E; [now exists y|].
  exfalso. apply (find_none _ _ E) in H. lia.
Qed.

Lemma get_Recipe_or_404_run (pk : Z) (db : DB) :
  Orm.get_Recipe_or_404 pk db
  = match find (fun r => recipe_pk r =? pk) (Recipe_objects db) with
    | Some recipe => (Ok recipe, db, [Select TRecipe])
    | None => (Raise (Http404 "No Recipe matches the given query."), db,
               [Select TRecipe])
    end.
Proof.
  unfold Orm.get_Recipe_or_404, bind, query, raise, ret.
  destruct (find _ _); reflexivity.
Qed.

Lemma get_User_or_404_run (pk : Z) (db : DB) :
  Orm.get_User_or_404 pk db
  = match find (fun u => user_pk u =? pk) (User_objects db) with
    | Some user => (Ok user, db, [Select TUser])
    | None => (Raise (Http404 "No User matches the given query."), db,
               [Select TUser])
    end.
Proof.
  unfold Orm.get_User_or_404, bind, query, raise, ret.
  destruct (find _ _); reflexivity.
Qed.

(** [subscribe] past the lookup of the author and the self-check. *)
Lemma subscribe_run (request_method : method) (request_user : User) (pk : Z)
    (db : DB) :
  Views.subscribe request_method request_user pk db
  = match find (fun u => user_pk u =? pk) (User_objects db) with
    | None => (Raise (Http404 "No User matches the given query."), db,
               [Select TUser])
    | Some author =>
        if user_pk request_user =? user_pk author then
          (Ok (mkResponse (Errors "Нельзя подписаться на себя")
                 HTTP_400_BAD_REQUEST), db, [Select TUser])
        else
          let t := Subscription_objects db in
          let u := user_pk request_user in
          let a := user_pk author in
          match request_method with
          | POST =>
              match filter (Orm.matches u a) (rows t) with
              | [] =>
                  (Ok (mkResponse (SubscriptionData author) HTTP_201_CREATED),
                   set_objects Subscription
                     (mkTable (rows t ++ [mkRelation (last_pk t + 1) u a])
                        (last_pk t + 1)) db,
                   [Select TUser; Select (TRelation Subscription);
                    Insert (TRelation Subscription);
                    Select (TRelation Subscription); Select TRecipe;
                    Select TRecipe])
              | [_] =>
                  (Ok (mkResponse (Errors "Вы уже подписаны")
                         HTTP_400_BAD_REQUEST), db,
                   [Select TUser; Select (TRelation Subscription)])
              | _ :: _ :: _ =>
                  (Raise MultipleObjectsReturned, db,
                   [Select TUser; Select (TRelation Subscription)])
              end
          | DELETE =>
              (Ok (if (count Subscription u a db =? 0)%nat
                   then mkResponse (Errors "Вы не подписаны") HTTP_400_BAD_REQUEST
                   else mkResponse NoData HTTP_204_NO_CONTENT),
               set_objects Subscription
                 (mkTable (filter (fun r => negb (Orm.matches u a r)) (rows t))
                    (last_pk t)) db,
               [Select TUser; Delete (TRelation Subscription)])
          end
    end.
Proof.
  unfold Views.subscribe, bind. rewrite get_User_or_404_run.
  destruct (find _ _) as [author|]; [|reflexivity].
  unfold Views.User_eqb.
  destruct (user_pk request_user =? user_pk author); [reflexivity|].
  destruct request_method; cbn [is_POST].
  - rewrite get_or_create_run. cbv zeta. cbn [objects].
    destruct (filter _ _) as [|obj [|obj' rest]]; reflexivity.
  - rewrite filter_delete_run. cbv zeta. cbn [objects].
    destruct (count Subscription _ _ db); reflexivity.
Qed.


End ViewsRun.

Section SelfSubscription.
Import Api Sample.

(** C3, as stated, fails: the view first loads the target user, so a
    statement is issued before the rejection. *)
Lemma self_subscribe_reads_user_table :
  ~ (forall (db : DB) (user : User),
       In user (User_objects db) ->
       result (Views.subscribe POST user (user_pk user)) db
       = Ok (mkResponse (Errors "Нельзя подписаться на себя") HTTP_400_BAD_REQUEST)
       /\ statements (Views.subscribe POST user (user_pk user)) db = []).
Proof.
  intros H. destruct (H db0 alice (or_introl eq_refl)) as [_ S].
  discriminate S.
Qed.

(** C3, amended: a user who targets themself is answered 400 with the
    self-subscription message; the database is unchanged and the only
    statement issued is the lookup of the target user, so the subscription
    table is neither read nor written. *)
Theorem self_subscribe_rejected (request_method : method) (user : User)
    (db : DB) :
  In user (User_objects db) ->
  Views.subscribe request_method user (user_pk user) db
  = (Ok (mkResponse (Errors "Нельзя подписаться на себя") HTTP_400_BAD_REQUEST),
     db, [Select TUser])
  /\ ~ In (Select (TRelation Subscription))
         (statements (Views.subscribe request_method user (user_pk user)) db)
  /\ ~ In (Insert (TRelation Subscription))
         (statements (Views.subscribe request_method user (user_pk user)) db).
Proof.
  intros H.
  assert (E : Views.subscribe request_method user (user_pk user) db
    = (Ok (mkResponse (Errors "Нельзя подписаться на себя") HTTP_400_BAD_REQUEST),
       db, [Select TUser])).
  { rewrite subscribe_run.
    destruct (find_present user_pk _ _ H) as [author F]. rewrite F.
    apply find_pk in F. rewrite F, Z.eqb_refl. reflexivity. }
  split; [exact E|]. unfold statements. rewrite E. cbn.
  split; intros [N|[]]; discriminate N.
Qed.

Lemma self_subscribe_rejected_witness :
  In alice (User_objects db0)
  /\ Views.subscribe POST alice 1 db0
     = (Ok (mkResponse (Errors "Нельзя подписаться на себя") 400),
        db0, [Select TUser]).
Proof.
  split; [now left|].
  apply (self_subscribe_rejected POST alice db0). now left.
Defined.

End SelfSubscription.

Section Invariant.
Import Api.

(** The two recipe actions: the recipe is looked up, then the mixin runs. *)
Lemma after_favorite (request_method : method) (u : User) (pk : Z) (db : DB) :
  after (Views.favorite request_method u pk) db
  = match find (fun r => recipe_pk r =? pk) (Recipe_objects db) with
    | Some recipe =>
        after (if is_POST request_method
               then AddRemoveMixin.add Favorite RecipeShortSerializer u recipe
               else AddRemoveMixin.remove Favorite u recipe) db
    | None => db
    end.
Proof.
  unfold after, Views.favorite, bind. rewrite get_Recipe_or_404_run.
  destruct (find _ _) as [recipe|]; [|reflexivity].
  destruct (_ db) as [[o db'] l]. reflexivity.
Qed.

Lemma after_shopping_cart (request_method : method) (u : User) (pk : Z)
    (db : DB) :
  after (Views.shopping_cart request_method u pk) db
  = match find (fun r => recipe_pk r =? pk) (Recipe_objects db) with
    | Some recipe =>
        after (if is_POST request_method
               then AddRemoveMixin.add ShoppingCart RecipeShortSerializer u recipe
               else AddRemoveMixin.remove ShoppingCart u recipe) db
    | None => db
    end.
Proof.
  unfold after, Views.shopping_cart, bind. rewrite get_Recipe_or_404_run.
  destruct (find _ _) as [recipe|]; [|reflexivity].
  destruct (_ db) as [[o db'] l]. reflexivity.
Qed.

(** What one request does to a relation table: nothing, or one record
    appended for a pair that had none (never a self-subscription), or some
    records deleted. *)
Lemma step_rows (db : DB) (r : request) (m : Model) :
  rows (objects m (step db r)) = rows (objects m db)
  \/ (exists obj,
        rows (objects m (step db r)) = (rows (objects m db) ++ [obj])%list
        /\ count m (rel_user obj) (rel_target obj) db = 0%nat
        /\ (m = Subscription -> rel_user obj <> rel_target obj))
  \/ (exists f, rows (objects m (step db r)) = filter f (rows (objects m db))).
Proof.
  assert (Hmixin : forall model request_method request_user recipe,
    let view := if is_POST request_method
                then AddRemoveMixin.add model RecipeShortSerializer
                       request_user recipe
                else AddRemoveMixin.remove model request_user recipe in
    model <> Subscription ->
    rows (objects m (after view db)) = rows (objects m db)
    \/ (exists obj,
          rows (objects m (after view db)) = (rows (objects m db) ++ [obj])%list
          /\ count m (rel_user obj) (rel_target obj) db = 0%nat
          /\ (m = Subscription -> rel_user obj <> rel_target obj))
    \/ (exists f, rows (objects m (after view db))
                  = filter f (rows (objects m db)))).
  { intros model mt u recipe view NS. subst view. unfold after.
    destruct mt; cbn [is_POST].
    - rewrite add_run. cbv zeta.
      destruct (filter _ _) as [|o [|o' rest]] eqn:E; cbn [fst snd];
        try (left; reflexivity).
      rewrite objects_set_objects.
      destruct model, m; try (left; reflexivity); try congruence;
        (right; left; eexists; split; [reflexivity|];
         split; [unfold count; cbn [rel_user rel_target objects] in *;
                 now rewrite E | discriminate]).
    - rewrite remove_run. cbv zeta. cbn [fst snd].
      rewrite objects_set_objects.
      destruct model, m; try (left; reflexivity);
        (right; right; eexists; reflexivity). }
  destruct r as [mt u pk | mt u pk | mt u pk]; unfold step, handle.
  - rewrite after_favorite.
    destruct (find _ _) as [recipe|]; [|left; reflexivity].
    apply (Hmixin Favorite mt u recipe). discriminate.
  - rewrite after_shopping_cart.
    destruct (find _ _) as [recipe|]; [|left; reflexivity].
    apply (Hmixin ShoppingCart mt u recipe). discriminate.
  - unfold after. rewrite subscribe_run.
    destruct (find _ _) as [author|]; [|left; reflexivity].
    destruct (Z.eqb_spec (user_pk u) (user_pk author)) as [|N];
      [left; reflexivity|].
    cbv zeta. destruct mt.
    + destruct (filter _ _) as [|o [|o' rest]] eqn:E; cbn [fst snd];
        try (left; reflexivity).
      rewrite objects_set_objects.
      destruct m; try (left; reflexivity).
      right; left; eexists; split; [reflexivity|].
      split; [unfold count; cbn [rel_user rel_target objects]; now rewrite E|].
      intros _. exact N.
    + cbn [fst snd]. rewrite objects_set_objects.
      destruct m; try (left; reflexivity).
      right; right; eexists; reflexivity.
Qed.

Lemma step_invariant (db : DB) (r : request) :
  (forall model, unique_together model db) /\ no_self_subscription db ->
  (forall model, unique_together model (step db r))
  /\ no_self_subscription (step db r).
Proof.
  intros [U S]. split.
  - intros m user target. unfold count.
    destruct (step_rows db r m) as [->|[(obj & -> & C & _)|(f & ->)]].
    + apply U.
    + rewrite filter_app, length_app. cbn [filter].
      destruct (Orm.matches user target obj) eqn:E; cbn [List.length].
      * apply matches_eq in E. destruct E as [<- <-].
        unfold count in C. rewrite C. lia.
      * specialize (U m user target). unfold count in U. lia.
    + etransitivity; [apply length_filter_filter | apply U].
  - intros x. change (Subscription_objects (step db r))
      with (objects Subscription (step db r)).
    destruct (step_rows db r Subscription) as [->|[(obj & -> & _ & N)|(f & ->)]].
    + apply S.
    + intros H. apply in_app_or in H. destruct H as [H|[<-|[]]].
      * now apply S.
      * now apply N.
    + intros H. apply filter_In in H. destruct H as [H _]. now apply S.
Qed.

(** C7: in every state reached from a store without relation records by
    favorite, shopping-cart and subscribe requests (add or remove, any user,
    any target), each of the three relation tables holds at most one record
    for each (subject, target) pair, and no subscription has its subject as
    target. *)
Theorem reachable_invariant (db : DB) :
  reachable db ->
  (forall model user target, (count model user target db <= 1)%nat)
  /\ no_self_subscription db.
Proof.
  intros R.
  enough ((forall model, unique_together model db) /\ no_self_subscription db)
    as [U S] by (split; [intros m; apply U | exact S]).
  induction R as [db F | db r R IH].
  - split.
    + intros m user target. unfold count. rewrite F. cbn. lia.
    + intros x. change (Subscription_objects db) with (objects Subscription db).
      rewrite F. intros [].
  - now apply step_invariant.
Qed.

Lemma reachable_run (db : DB) (requests : list request) :
  reachable db -> reachable (run db requests).
Proof.
  revert db. induction requests as [|r rs IH]; intros db R; [exact R|].
  apply IH. now apply reachable_step.
Qed.

Lemma reachable_invariant_witness :
  reachable Sample.db_busy
  /\ (forall model user target,
        (count model user target Sample.db_busy <= 1)%nat)
  /\ no_self_subscription Sample.db_busy.
Proof.
  assert (R : reachable Sample.db_busy).
  { apply reachable_run. apply reachable_fresh. intros []; reflexivity. }
  split; [exact R|]. exact (reachable_invariant Sample.db_busy R).
Defined.

End Invariant.

(** ** The shopping list *)

Section ShoppingList.
Import Views Aggregation.

Lemma same_group_eq (name unit : string) (it : item) :
  same_group name unit it = true <-> key it = (name, unit).
Proof.
  unfold same_group, key. rewrite andb_true_iff, !String.eqb_eq.
  split; [intros [-> ->]; reflexivity | intros [= -> ->]; split; reflexivity].
Qed.

Lemma same_group_false (name unit : string) (it : item) :
  same_group name unit it = false <-> key it <> (name, unit).
Proof.
  rewrite <- same_group_eq. destruct (same_group name unit it); split;
    congruence.
Qed.

Lemma lookup_none (name unit : string) (groups : list item) :
  lookup name unit groups = None <-> ~ In (name, unit) (map key groups).
Proof.
  induction groups as [|g rest IH]; cbn [lookup map In]; [tauto|].
  destruct (same_group name unit g) eqn:E.
  - apply same_group_eq in E. split; [discriminate | tauto].
  - apply same_group_false in E. rewrite IH. split; [intros H [C|C] | ]; tauto.
Qed.

(** A row joins its group: the total of its pair grows by its amount, or
    starts at it; the other totals are as before. *)
Lemma lookup_add_to_group (name unit : string) (amount : Z)
    (name' unit' : string) (groups : list item) :
  lookup name' unit' (add_to_group name unit amount groups)
  = if in_group name' unit' (name, unit, amount)
    then Some (match lookup name unit groups with
               | Some t => t + amount
               | None => amount
               end)
    else lookup name' unit' groups.
Proof.
  induction groups as [|g rest IH]; cbn [add_to_group lookup in_group].
  - unfold same_group. cbn. reflexivity.
  - destruct (same_group name unit g) eqn:E; cbn [lookup].
    + apply same_group_eq in E. unfold key in E. injection E as En Eu.
      unfold same_group at 1 2. cbn [ingredient__name ingredient__measurement_unit total].
      rewrite En, Eu. destruct (String.eqb name name' && String.eqb unit unit')%bool;
        reflexivity.
    + destruct (same_group name' unit' g) eqn:E'.
      * apply same_group_eq in E'. apply same_group_false in E.
        destruct (String.eqb_spec name name') as [<-|]; cbn [andb];
          [|reflexivity].
        destruct (String.eqb_spec unit unit') as [<-|]; [|reflexivity].
        contradiction.
      * exact IH.
Qed.

Lemma keys_add_to_group (name unit : string) (amount : Z) (groups : list item) :
  map key (add_to_group name unit amount groups)
  = if existsb (same_group name unit) groups
    then map key groups
    else (map key groups ++ [(name, unit)])%list.
Proof.
  induction groups as [|g rest IH]; cbn [add_to_group existsb map app];
    [reflexivity|].
  destruct (same_group name unit g) eqn:E; cbn [orb map].
  - reflexivity.
  - rewrite IH. destruct (existsb _ rest); reflexivity.
Qed.

Lemma NoDup_add_to_group (name unit : string) (amount : Z) (groups : list item) :
  NoDup (map key groups) ->
  NoDup (map key (add_to_group name unit amount groups)).
Proof.
  intros H. rewrite keys_add_to_group.
  destruct (existsb _ groups) eqn:E; [assumption|].
  apply NoDup_app; [assumption | repeat constructor; intros [] |].
  intros k Hk [<-|[]].
  apply in_map_iff in Hk. destruct Hk as (g & Hg & Hin).
  assert (T : existsb (same_group name unit) groups = true)
    by (apply existsb_exists; exists g; split; [assumption | now apply same_group_eq]).
  congruence.
Qed.

Lemma In_lookup (groups : list item) (it : item) :
  NoDup (map key groups) ->
  (In it groups
   <-> lookup (ingredient__name it) (ingredient__measurement_unit it) groups
       = Some (total it)).
Proof.
  induction groups as [|g rest IH]; cbn [map In lookup]; intros N.
  - split; [intros [] | discriminate].
  - inversion N as [|? ? Hg Hrest]; subst.
    destruct (same_group _ _ g) eqn:E.
    + apply same_group_eq in E. split.
      * intros [->|Hin]; [reflexivity|].
        exfalso. apply Hg. rewrite E. change (In (key it) (map key rest)).
        now apply in_map.
      * intros [= T]. left. destruct g, it. unfold key in E. cbn in *.
        congruence.
    + apply same_group_false in E. rewrite <- (IH Hrest). split.
      * intros [->|Hin]; [now contradiction E | assumption].
      * intros Hin. now right.
Qed.

(** The totals after all the joined rows are grouped. *)
Lemma lookup_fold (name unit : string) (joined : list (string * string * Z)) :
  forall groups,
    lookup name unit
      (fold_left (fun groups '(n, u, amount) => add_to_group n u amount groups)
         joined groups)
    = match lookup name unit groups with
      | Some t => Some (t + group_total name unit joined)
      | None =>
          if existsb (in_group name unit) joined
          then Some (group_total name unit joined)
          else None
      end.
Proof.
  induction joined as [|[[n u] a] rest IH]; intros groups; cbn [fold_left].
  - unfold group_total. cbn. destruct (lookup name unit groups); [f_equal; lia|reflexivity].
  - rewrite IH, lookup_add_to_group. unfold group_total.
    cbn [filter existsb].
    destruct (in_group name unit (n, u, a)) eqn:E; cbn [orb map fold_right snd].
    + cbn [in_group] in E. apply andb_true_iff in E.
      rewrite !String.eqb_eq in E. destruct E as [-> ->].
      destruct (lookup name unit groups); f_equal; lia.
    + reflexivity.
Qed.

Lemma NoDup_fold (joined : list (string * string * Z)) :
  forall groups,
    NoDup (map key groups) ->
    NoDup (map key
      (fold_left (fun groups '(n, u, amount) => add_to_group n u amount groups)
         joined groups)).
Proof.
  induction joined as [|[[n u] a] rest IH]; intros groups N; cbn [fold_left];
    [assumption|].
  apply IH. now apply NoDup_add_to_group.
Qed.

(** One result row per (name, unit) pair that occurs among the joined rows,
    carrying the sum of the amounts of the pair. *)
Lemma annotate_total_groups (joined : list (string * string * Z)) :
  NoDup (map key (annotate_total joined))
  /\ forall it,
       In it (annotate_total joined)
       <-> (exists amount,
              In (ingredient__name it, ingredient__measurement_unit it, amount)
                joined)
           /\ total it
              = group_total (ingredient__name it)
                  (ingredient__measurement_unit it) joined.
Proof.
  assert (N : NoDup (map key (annotate_total joined)))
    by (apply NoDup_fold; constructor).
  split; [exact N|]. intros it. rewrite (In_lookup _ _ N).
  unfold annotate_total. rewrite lookup_fold. cbn [lookup].
  destruct (existsb _ joined) eqn:E.
  - apply existsb_exists in E. destruct E as ([[n u] a] & Hin & G).
    cbn [in_group] in G. apply andb_true_iff in G.
    rewrite !String.eqb_eq in G. destruct G as [-> ->].
    split.
    + intros [= <-]. split; [now exists a | reflexivity].
    + intros [_ ->]. reflexivity.
  - split; [discriminate|]. intros [[a Hin] _]. exfalso.
    assert (T : existsb (in_group (ingredient__name it)
                           (ingredient__measurement_unit it)) joined = true).
    { apply existsb_exists. eexists. split; [exact Hin|].
      cbn [in_group]. now rewrite !String.eqb_refl. }
    congruence.
Qed.

End ShoppingList.

Section ShoppingListReport.
Import Views Aggregation Api.



Lemma download_shopping_cart_run (order : list item -> list item)
    (mime_encode : string -> string) (user : User) (db : DB) :
  download_shopping_cart order mime_encode user db
  = (match convert_to_charset mime_encode
             ("attachment; filename=" ++ username user
              ++ "_shopping_list.txt") with
     | Ok content_disposition =>
         Ok (mkHttpResponse
               (join LF (header
                         :: map line
                              (order (annotate_total (cart_rows user db)))))
               "text/plain" content_disposition)
     | Raise e => Raise e
     end,
     db,
     [Select TRecipeIngredient; Select TRecipe;
      Select (TRelation ShoppingCart); Select TIngredient]).
Proof.
  unfold download_shopping_cart, bind, query_join, lift, ret.
  now destruct (convert_to_charset _ _).
Qed.






Section Report.
Variable order : list item -> list item.
Variable mime_encode : string -> string.
Hypothesis order_perm : forall groups, Permutation (order groups) groups.
Local Abbreviation download_shopping_cart :=
  (Views.download_shopping_cart order mime_encode).



End Report.



End ShoppingListReport.

(** ** Updating a recipe *)

Section Update.
Import RecipeSerializer Api.

Variable amount_max : Z.
Variable set_order : list Z -> list Z.
Local Abbreviation within_range := (RecipeSerializer.within_range amount_max).
Local Abbreviation tags_set := (RecipeSerializer.tags_set set_order).
Local Abbreviation bulk_create := (RecipeSerializer.bulk_create amount_max).
Local Abbreviation update := (RecipeSerializer.update amount_max set_order).

Lemma new_rows_cons (instance : Recipe) (pk : Z) (it : ingredient_item)
    (rest : list ingredient_item) :
  new_rows instance pk (it :: rest)
  = mkRecipeIngredient pk (recipe_pk instance) (item_id it) (item_amount it)
    :: new_rows instance (pk + 1) rest.
Proof. reflexivity. Qed.

Lemma new_rows_recipe (instance : Recipe) (items : list ingredient_item) :
  forall pk r, In r (new_rows instance pk items) ->
               ri_recipe r = recipe_pk instance
               /\ In (mkIngredientItem (ri_ingredient r) (ri_amount r)) items.
Proof.
  induction items as [|it rest IH]; intros pk r; [intros []|].
  rewrite new_rows_cons. intros [<-|H]; cbn.
  - split; [reflexivity|]. left. now destruct it.
  - destruct (IH _ _ H) as [? ?]. split; [assumption | now right].
Qed.

Lemma new_rows_pairs (instance : Recipe) (items : list ingredient_item) :
  forall pk,
    map (fun r => (ri_ingredient r, ri_amount r))
      (filter (fun r => ri_recipe r =? recipe_pk instance)
         (new_rows instance pk items))
    = pairs items.
Proof.
  induction items as [|it rest IH]; intros pk; [reflexivity|].
  rewrite new_rows_cons. cbn [filter ri_recipe].
  rewrite Z.eqb_refl. cbn [map pairs]. f_equal. apply IH.
Qed.

Lemma new_rows_distinct (instance : Recipe) (items : list ingredient_item) :
  forall pk,
    NoDup (map item_id items) ->
    pairs_distinct (new_rows instance pk items) = true.
Proof.
  induction items as [|it rest IH]; intros pk N; [reflexivity|].
  rewrite new_rows_cons. cbn [pairs_distinct]. cbn [map] in N.
  inversion N as [|? ? Hit Hrest]; subst.
  rewrite (IH _ Hrest), andb_true_r. apply negb_true_iff.
  destruct (existsb _ _) eqn:E; [|reflexivity].
  apply existsb_exists in E. destruct E as (r & Hr & S).
  apply new_rows_recipe in Hr. destruct Hr as [_ Hr].
  unfold same_pair in S. cbn in S. apply andb_true_iff in S.
  destruct S as [_ S]. apply Z.eqb_eq in S.
  exfalso. apply Hit. rewrite S.
  change (ri_ingredient r) with (item_id (mkIngredientItem (ri_ingredient r) (ri_amount r))).
  now apply in_map.
Qed.

(** The first two steps of [update] leave the ingredient tables alone. *)
Lemma super_update_run (instance : Recipe) (vd : validated_data) (db : DB) :
  exists instance' db',
    super_update instance vd db = (Ok instance', db', [Update TRecipe])
    /\ recipe_pk instance' = recipe_pk instance
    /\ RecipeIngredient_objects db' = RecipeIngredient_objects db
    /\ Ingredient_objects db' = Ingredient_objects db.
Proof.
  unfold super_update, save, bind, execute, ret. cbn.
  eexists _, _. repeat split.
Qed.

Lemma tags_set_run (instance : Recipe) (tags : list Z) (db : DB) :
  exists db' stmts,
    tags_set instance tags db = (Ok tt, db', stmts)
    /\ RecipeIngredient_objects db' = RecipeIngredient_objects db
    /\ Ingredient_objects db' = Ingredient_objects db.
Proof.
  unfold tags_set, bind, query, execute, ret.
  destruct (filter (fun t => negb (mem t tags)) _) as [|s stale];
    destruct (dedup _) as [|n new_objs]; cbn;
    eexists _, _; repeat split.
Qed.

End Update.

Section UpdateReplaces.
Import RecipeSerializer Api.

Variable amount_max : Z.
Variable set_order : list Z -> list Z.
Local Abbreviation within_range := (RecipeSerializer.within_range amount_max).
Local Abbreviation tags_set := (RecipeSerializer.tags_set set_order).
Local Abbreviation bulk_create := (RecipeSerializer.bulk_create amount_max).
Local Abbreviation update := (RecipeSerializer.update amount_max set_order).

Lemma bind_ok {A B} (m : M A) (k : A -> M B) (db db1 db2 : DB) (a : A)
    (o : outcome B) (l1 l2 : list access) :
  m db = (Ok a, db1, l1) ->
  k a db1 = (o, db2, l2) ->
  bind m k db = (o, db2, (l1 ++ l2)%list).
Proof. intros E1 E2. unfold bind. now rewrite E1, E2. Qed.

(** A batch that passes the checks of the database is appended whole. *)
Lemma bulk_create_run (instance : Recipe) (items : list ingredient_item)
    (db : DB) :
  NoDup (map item_id items) ->
  (forall it, In it items ->
     existsb (fun i => ingredient_pk i =? item_id it) (Ingredient_objects db)
     = true
     /\ 0 <= item_amount it <= amount_max) ->
  (forall r, In r (rows (RecipeIngredient_objects db)) ->
             ri_recipe r <> recipe_pk instance) ->
  exists db' stmts,
    bulk_create instance items db
    = (Ok (new_rows instance (last_pk (RecipeIngredient_objects db) + 1) items),
       db', stmts)
    /\ rows (RecipeIngredient_objects db')
       = (rows (RecipeIngredient_objects db)
          ++ new_rows instance (last_pk (RecipeIngredient_objects db) + 1) items)%list.
Proof.
  intros N V F. unfold bulk_create.
  destruct items as [|it rest].
  - eexists _, _. split; [reflexivity|]. cbn. now rewrite app_nil_r.
  - cbv zeta.
    set (new := new_rows instance _ (it :: rest)).
    assert (I : insertable db new = true).
    { unfold insertable. apply andb_true_iff. split.
      - now apply new_rows_distinct.
      - apply forallb_forall. intros n Hn.
        apply new_rows_recipe in Hn. destruct Hn as [Rn In_n].
        destruct (V _ In_n) as [FK Am]. cbn [item_id item_amount] in FK, Am.
        apply andb_true_iff. split; [|lia].
        apply andb_true_iff. split; [|exact FK].
        apply negb_true_iff.
        destruct (existsb (same_pair n) _) eqn:E; [|reflexivity].
        apply existsb_exists in E. destruct E as (r & Hr & S).
        unfold same_pair in S. apply andb_true_iff in S.
        destruct S as [S _]. apply Z.eqb_eq in S.
        exfalso. apply (F r Hr). congruence. }
    assert (W : within_range new = true).
    { apply forallb_forall. intros n Hn.
      apply new_rows_recipe in Hn. destruct Hn as [_ In_n].
      destruct (V _ In_n) as [_ Am]. cbn [item_amount] in Am. lia. }
    rewrite W, I. eexists _, _. split; reflexivity.
Qed.

(** C6, as stated, fails. The fields validate each entry on its own (a
    stored ingredient, an amount of at least 1) and the check for repeated
    ingredients compares the ids as they were sent, so a list that names an
    ingredient twice, or an amount the column cannot hold, reaches [update];
    the insert is then refused after the old associations were deleted, and
    the recipe is left with none. Each of the two cases fails alone: distinct
    ingredients with an amount out of range, and amounts in range with a
    repeated ingredient. *)
Lemma update_refused_after_delete :
  ~ (forall (amount_max : Z) (set_order : list Z -> list Z)
            (instance : Recipe) (vd : validated_data)
            (items : list ingredient_item) (db : DB),
       vd_recipeingredient_set vd = Some items ->
       NoDup (map item_id items) ->
       (forall it, In it items ->
          existsb (fun i => ingredient_pk i =? item_id it)
            (Ingredient_objects db) = true
          /\ 1 <= item_amount it) ->
       Permutation
         (recipeingredient_set instance
            (after (RecipeSerializer.update amount_max set_order instance vd)
               db))
         (pairs items))
  /\ ~ (forall (amount_max : Z) (set_order : list Z -> list Z)
               (instance : Recipe) (vd : validated_data)
               (items : list ingredient_item) (db : DB),
          vd_recipeingredient_set vd = Some items ->
          (forall it, In it items ->
             existsb (fun i => ingredient_pk i =? item_id it)
               (Ingredient_objects db) = true
             /\ 1 <= item_amount it <= amount_max) ->
          Permutation
            (recipeingredient_set instance
               (after (RecipeSerializer.update amount_max set_order instance vd)
                  db))
            (pairs items)).
Proof.
  split; intros H.
  - specialize (H 2147483647 (fun l => l) Sample.pancakes
                  (mkValidated None None None None None
                     (Some [mkIngredientItem 2 2147483648]))
                  [mkIngredientItem 2 2147483648]
                  Sample.db_a2 eq_refl).
    assert (N : NoDup (map item_id [mkIngredientItem 2 2147483648]))
      by (repeat constructor; intros []).
    assert (V : forall it,
               In it [mkIngredientItem 2 2147483648] ->
               existsb (fun i => ingredient_pk i =? item_id it)
                 (Ingredient_objects Sample.db_a2) = true
               /\ 1 <= item_amount it)
      by (intros it [<-|[]]; split; (reflexivity || (cbn; lia))).
    specialize (H N V). vm_compute in H.
    apply Permutation_nil in H. discriminate H.
  - specialize (H 2147483647 (fun l => l) Sample.pancakes
                  (mkValidated None None None None None
                     (Some [mkIngredientItem 1 2; mkIngredientItem 1 3]))
                  [mkIngredientItem 1 2; mkIngredientItem 1 3]
                  Sample.db_a2 eq_refl).
    assert (V : forall it,
               In it [mkIngredientItem 1 2; mkIngredientItem 1 3] ->
               existsb (fun i => ingredient_pk i =? item_id it)
                 (Ingredient_objects Sample.db_a2) = true
               /\ 1 <= item_amount it <= 2147483647)
      by (intros it [<-|[<-|[]]]; split; (reflexivity || (cbn; lia))).
    specialize (H V). vm_compute in H.
    apply Permutation_nil in H. discriminate H.
Qed.

(** C6, amended: an update that carries an ingredient list the database
    accepts (stored ingredients, each listed once, amounts from 1 up to the
    largest the column holds) succeeds, and afterwards the ingredient
    associations of the recipe are exactly the listed (ingredient, amount)
    pairs, each once, with nothing left of the former ones; the associations
    of the other recipes are as before. Updating a recipe from {A:2} to
    {B:3} leaves {B:3}. *)
Theorem update_replaces_ingredients (instance : Recipe) (vd : validated_data)
    (items : list ingredient_item) (db : DB) :
  vd_recipeingredient_set vd = Some items ->
  NoDup (map item_id items) ->
  (forall it, In it items ->
     existsb (fun i => ingredient_pk i =? item_id it) (Ingredient_objects db)
     = true
     /\ 1 <= item_amount it <= amount_max) ->
  exists instance' db' stmts,
    update instance vd db = (Ok instance', db', stmts)
    /\ recipe_pk instance' = recipe_pk instance
    /\ Permutation (recipeingredient_set instance' db') (pairs items)
    /\ (forall other,
          recipe_pk other <> recipe_pk instance ->
          recipeingredient_set other db' = recipeingredient_set other db).
Proof.
  intros Hitems N V. unfold update. rewrite Hitems.
  destruct (super_update_run instance vd db) as (inst & db1 & S1 & Pk & RI1 & I1).
  assert (T : exists db2 stmts,
             (match vd_tags vd with
              | Some tags => tags_set inst tags
              | None => ret tt
              end) db1 = (Ok tt, db2, stmts)
             /\ RecipeIngredient_objects db2 = RecipeIngredient_objects db
             /\ Ingredient_objects db2 = Ingredient_objects db).
  { destruct (vd_tags vd) as [tags|].
    - destruct (tags_set_run set_order inst tags db1) as (db2 & st & E & R & I).
      exists db2, st. split; [exact E|]. split; congruence.
    - exists db1, []. split; [reflexivity|]. split; assumption. }
  destruct T as (db2 & st2 & S2 & RI2 & I2).
  set (kept := filter (fun r => negb (ri_recipe r =? recipe_pk inst))
                 (rows (RecipeIngredient_objects db2))).
  set (db3 := set_RecipeIngredient_objects
                (mkTable kept (last_pk (RecipeIngredient_objects db2))) db2).
  assert (S3 : recipeingredient_set_delete inst db2
               = (Ok tt, db3, [Delete TRecipeIngredient])) by reflexivity.
  destruct (bulk_create_run inst items db3) as (db4 & st4 & S4 & R4).
  { exact N. }
  { intros it Hit. destruct (V it Hit) as [FK Am]. split; [|lia].
    change (Ingredient_objects db3) with (Ingredient_objects db2).
    now rewrite I2. }
  { intros r Hr. cbn in Hr. apply filter_In in Hr. destruct Hr as [_ Hr].
    apply negb_true_iff in Hr. lia. }
  exists inst, db4. eexists. split; [|split; [exact Pk|split]].
  - eapply bind_ok; [exact S1|].
    eapply bind_ok; [exact S2|].
    eapply bind_ok; [|reflexivity].
    eapply bind_ok; [exact S3|].
    eapply bind_ok; [exact S4|]. reflexivity.
  - unfold recipeingredient_set. rewrite R4, filter_app, map_app.
    rewrite new_rows_pairs.
    change (rows (RecipeIngredient_objects db3)) with kept. subst kept.
    replace (filter _ (filter _ _)) with (@nil RecipeIngredient);
      [apply Permutation_refl|].
    symmetry.
    apply (filter_negb_same (fun r => ri_recipe r =? recipe_pk inst)).
  - intros other Hother. unfold recipeingredient_set.
    rewrite R4, filter_app, map_app.
    change (rows (RecipeIngredient_objects db3)) with kept. subst kept.
    rewrite RI2.
    replace (filter (fun r => ri_recipe r =? recipe_pk other) (new_rows _ _ _))
      with (@nil RecipeIngredient).
    + cbn [map]. rewrite app_nil_r. f_equal.
      induction (rows (RecipeIngredient_objects db)) as [|r rest IH];
        [reflexivity|].
      cbn [filter].
      destruct (Z.eqb_spec (ri_recipe r) (recipe_pk inst)) as [E|E]; cbn [negb].
      * destruct (Z.eqb_spec (ri_recipe r) (recipe_pk other)); [lia | exact IH].
      * cbn [filter]. destruct (ri_recipe r =? recipe_pk other);
          [f_equal|]; exact IH.
    + symmetry. generalize (last_pk (RecipeIngredient_objects db3) + 1).
      intros pk.
      destruct (filter _ (new_rows inst pk items)) as [|r rest] eqn:E;
        [reflexivity|].
      assert (Hr : In r (filter (fun r => ri_recipe r =? recipe_pk other)
                           (new_rows inst pk items)))
        by (rewrite E; now left).
      apply filter_In in Hr. destruct Hr as [Hr Eq].
      apply new_rows_recipe in Hr. lia.
Qed.

End UpdateReplaces.

Section UpdateWitness.
Import RecipeSerializer Api Sample.

Lemma update_replaces_ingredients_witness :
  recipeingredient_set pancakes db_a2 = [(1, 2)]
  /\ exists instance' db' stmts,
       update 2147483647 (fun l => l) pancakes to_b3 db_a2
       = (Ok instance', db', stmts)
       /\ recipe_pk instance' = 1
       /\ Permutation (recipeingredient_set instance' db') [(2, 3)]
       /\ (forall other,
             recipe_pk other <> 1 ->
             recipeingredient_set other db' = recipeingredient_set other db_a2).
Proof.
  split; [reflexivity|].
  apply (update_replaces_ingredients 2147483647 (fun l => l) pancakes to_b3
           [mkIngredientItem 2 3] db_a2).
  - reflexivity.
  - repeat constructor. intros [].
  - intros it [<-|[]]. split; [reflexivity | cbn; lia].
Defined.

End UpdateWitness.

(** * Further properties of the code *)

(** ** The codec beyond the round trip *)

Section CodecMore.
Import ShortLinks.

Lemma index_get (s : string) (c : ascii) :
  forall i, index s c = Some i ->
            0 <= i /\ String.get (Z.to_nat i) s = Some c.
Proof.
  induction s as [|x s IH]; intros i; cbn [index]; [discriminate|].
  destruct (Ascii.eqb_spec x c) as [->|N].
  - intros [= <-]. split; [lia | reflexivity].
  - destruct (index s c) as [j|]; [|discriminate].
    intros [= <-]. destruct (IH j eq_refl) as [Hj G]. split; [lia|].
    replace (Z.to_nat (j + 1)) with (S (Z.to_nat j)) by lia. exact G.
Qed.

Lemma get_length (s : string) :
  forall n c, String.get n s = Some c -> (n < String.length s)%nat.
Proof.
  induction s as [|x s IH]; intros n c; cbn; [discriminate|].
  destruct n as [|n]; [lia|]. intros H. apply IH in H. lia.
Qed.

(** The value of a symbol is a digit of base 36, and determines the symbol. *)
Lemma index_digit (c : ascii) (i : Z) :
  index ALPHABET c = Some i -> 0 <= i < 36.
Proof.
  intros H. apply index_get in H. destruct H as [H0 G].
  apply get_length in G. change (String.length ALPHABET) with 36%nat in G. lia.
Qed.

Lemma index_same (c d : ascii) (i : Z) :
  index ALPHABET c = Some i -> index ALPHABET d = Some i -> c = d.
Proof.
  intros Hc Hd. apply index_get in Hc, Hd. destruct Hc as [_ Hc], Hd as [_ Hd].
  congruence.
Qed.

(** [decode] is positional: the running value is shifted by the number of
    characters read, and what they add is below that power of 36. *)
Lemma decode_loop_bounds (code : string) :
  forall result v,
    decode_loop code result = Ok v ->
    result * 36 ^ Z.of_nat (String.length code) <= v
    /\ v < (result + 1) * 36 ^ Z.of_nat (String.length code).
Proof.
  induction code as [|c code IH]; intros result v; cbn [decode_loop String.length].
  - intros [= <-]. cbn. lia.
  - destruct (index ALPHABET c) as [i|] eqn:Ec; [|discriminate].
    intros H. apply IH in H. apply index_digit in Ec.
    rewrite Nat2Z.inj_succ, Z.pow_succ_r by lia.
    assert (P : 0 < 36 ^ Z.of_nat (String.length code))
      by (apply Z.pow_pos_nonneg; lia).
    nia.
Qed.

Lemma decode_loop_same_length (a : string) :
  forall b ra rb v,
    String.length a = String.length b ->
    decode_loop a ra = Ok v ->
    decode_loop b rb = Ok v ->
    a = b /\ ra = rb.
Proof.
  induction a as [|c a IH]; intros [|d b] ra rb v L; cbn [String.length] in L;
    try discriminate; cbn [decode_loop].
  - intros [= <-] [= <-]. split; reflexivity.
  - destruct (index ALPHABET c) as [i|] eqn:Ec; [|discriminate].
    destruct (index ALPHABET d) as [j|] eqn:Ed; [|discriminate].
    intros Ha Hb. injection L as L.
    destruct (IH b _ _ v L Ha Hb) as [-> E].
    apply index_digit in Ec as Bi. apply index_digit in Ed as Bj.
    assert (i = j /\ ra = rb) as [-> ->] by lia.
    split; [|reflexivity]. f_equal. eapply index_same; eassumption.
Qed.

End CodecMore.

Section CodecExtras.
Import ShortLinks.

(** What a returned code decodes to; the loop cannot have run on a negative
    number. *)
Lemma encode_Some (n : Z) (code : string) :
  encode n = Some code -> 0 <= n /\ decode code = Ok n.
Proof.
  intros E.
  assert (H : 0 <= n).
  { destruct (Z.lt_ge_cases n 0) as [Neg|]; [|assumption].
    unfold encode, encode_fuel in E.
    destruct (Z.eqb_spec n 0); [lia|].
    rewrite encode_loop_negative in E by assumption. discriminate. }
  split; [exact H|].
  destruct (encode_digits n H) as (d & E' & D & _).
  rewrite E' in E. injection E as <-.
  unfold decode in *. now rewrite decode_loop_app, decode_loop_zeros.
Qed.

(** On a negative number the loop of [encode] never ends: no amount of fuel
    gives a code. *)
Theorem encode_negative_never_returns (n : Z) :
  n < 0 -> forall fuel, encode_fuel fuel n = None.
Proof.
  intros H fuel. unfold encode_fuel.
  destruct (Z.eqb_spec n 0); [lia|].
  now rewrite encode_loop_negative.
Qed.

Lemma encode_negative_never_returns_witness :
  -1 < 0 /\ forall fuel, encode_fuel fuel (-1) = None.
Proof. split; [lia | apply (encode_negative_never_returns (-1)); lia]. Defined.

(** Two numbers with the same code are equal. *)
Theorem encode_injective (a b : Z) (code : string) :
  encode a = Some code -> encode b = Some code -> a = b.
Proof.
  intros Ea Eb. apply encode_Some in Ea, Eb.
  destruct Ea as [_ Da], Eb as [_ Db]. congruence.
Qed.

Lemma encode_injective_witness :
  encode 1295 = Some "0zz" /\ 1295 = 1295.
Proof.
  split; [reflexivity|].
  apply (encode_injective 1295 1295 "0zz"); reflexivity.
Defined.

(** Zeros in front of a code do not change what it decodes to, so the
    resolver answers the padded code like the code itself. *)
Theorem decode_ignores_leading_zeros (k : nat) (code : string) :
  decode (zeros k ++ code) = decode code
  /\ forall base_url db,
       Api.result (redirect_short_link base_url (zeros k ++ code)) db
       = Api.result (redirect_short_link base_url code) db.
Proof.
  assert (E : decode (zeros k ++ code) = decode code).
  { unfold decode. rewrite decode_loop_app, decode_loop_zeros. reflexivity. }
  split; [exact E|]. intros base_url db.
  unfold Api.result, redirect_short_link, try_except, bind, lift.
  rewrite E. reflexivity.
Qed.

(** Codes of one length with the same value are the same code. *)
Theorem decode_injective_same_length (a b : string) (v : Z) :
  String.length a = String.length b ->
  decode a = Ok v -> decode b = Ok v -> a = b.
Proof.
  intros L Da Db. now destruct (decode_loop_same_length a b 0 0 v L Da Db).
Qed.

Lemma decode_injective_same_length_witness :
  String.length "00z" = String.length "00z"
  /\ decode "00z" = Ok 35 /\ "00z" = "00z".
Proof.
  split; [reflexivity|]. split; [reflexivity|].
  apply (decode_injective_same_length "00z" "00z" 35); reflexivity.
Defined.

Lemma pow36_pos (k : nat) : 0 < 36 ^ Z.of_nat k.
Proof. apply Z.pow_pos_nonneg; lia. Qed.

Lemma pow36_mono (j k : nat) : (j <= k)%nat -> 36 ^ Z.of_nat j <= 36 ^ Z.of_nat k.
Proof. intros H. apply Z.pow_le_mono_r; lia. Qed.

(** A code without leading zero has a value of exactly its number of
    digits. *)
Lemma decode_leading_digit (c : ascii) (rest : string) (v : Z) :
  c <> "0"%char ->
  decode (String c rest) = Ok v ->
  36 ^ Z.of_nat (String.length rest) <= v.
Proof.
  intros N. unfold decode. cbn [decode_loop].
  destruct (index ALPHABET c) as [i|] eqn:Ec; [|discriminate].
  intros H. apply decode_loop_bounds in H. destruct H as [H _].
  assert (i <> 0).
  { intros ->. apply N. apply (index_same c "0" 0 Ec). reflexivity. }
  apply index_digit in Ec. pose proof (pow36_pos (String.length rest)). nia.
Qed.

Lemma decode_below_power (code : string) (v : Z) :
  decode code = Ok v -> 0 <= v < 36 ^ Z.of_nat (String.length code).
Proof. intros H. apply decode_loop_bounds in H. lia. Qed.

(** The length of the code of [n]: three, or the number of digits of [n]
    when that is more. *)
Theorem encode_length (n : Z) :
  0 <= n ->
  exists code,
    encode n = Some code
    /\ forall k, (3 <= k)%nat ->
         ((String.length code <= k)%nat <-> n < 36 ^ Z.of_nat k).
Proof.
  intros H. destruct (encode_digits n H) as (d & E & D & L).
  eexists. split; [exact E|]. intros k Hk.
  rewrite length_append, length_zeros.
  pose proof (decode_below_power d n D) as [_ Up]. split.
  - intros Len.
    pose proof (pow36_mono (String.length d) k ltac:(lia)). lia.
  - intros Lt. destruct d as [|c rest]; [cbn; lia|].
    pose proof (decode_leading_digit c rest n (L c rest eq_refl) D) as Low.
    cbn [String.length].
    destruct (Nat.le_gt_cases (S (String.length rest)) k) as [|G]; [lia|].
    pose proof (pow36_mono k (String.length rest) ltac:(lia)). lia.
Qed.

Lemma encode_length_witness :
  0 <= 46655 /\
  exists code,
    encode 46655 = Some code
    /\ forall k, (3 <= k)%nat ->
         ((String.length code <= k)%nat <-> 46655 < 36 ^ Z.of_nat k).
Proof. split; [lia | apply (encode_length 46655); lia]. Defined.

(** The other round trip: a code of the shape [encode] produces (over the
    alphabet, at least three characters, and no leading zero when longer) is
    what [encode] returns for its value. *)
Theorem encode_decode (code : string) (n : Z) :
  decode code = Ok n ->
  (3 <= String.length code)%nat ->
  (String.length code = 3%nat
   \/ exists c rest, code = String c rest /\ c <> "0"%char) ->
  encode n = Some code.
Proof.
  intros Dc Len Shape.
  pose proof (decode_below_power code n Dc) as [H Up].
  destruct (encode_digits n H) as (d & E & D & L).
  rewrite E. f_equal.
  assert (Dz : decode (zeros (3 - String.length d) ++ d) = Ok n).
  { unfold decode in *. now rewrite decode_loop_app, decode_loop_zeros. }
  destruct (decode_loop_same_length (zeros (3 - String.length d) ++ d) code 0 0 n) as [Eq _]; [|exact Dz | exact Dc | exact Eq].
  rewrite length_append, length_zeros.
  pose proof (decode_below_power d n D) as [_ Upd].
  assert (Lowd : (3 < String.length d)%nat ->
                 36 ^ Z.of_nat (String.length d - 1) <= n).
  { intros G. destruct d as [|c rest]; [cbn in G; lia|].
    pose proof (decode_leading_digit c rest n (L c rest eq_refl) D).
    cbn [String.length]. now replace (S (String.length rest) - 1)%nat
      with (String.length rest) by lia. }
  assert (Lowc : (3 < String.length code)%nat ->
                 36 ^ Z.of_nat (String.length code - 1) <= n).
  { intros G. destruct Shape as [S3|(c & rest & -> & N)]; [lia|].
    pose proof (decode_leading_digit c rest n N Dc).
    cbn [String.length]. now replace (S (String.length rest) - 1)%nat
      with (String.length rest) by lia. }
  destruct (Nat.lt_trichotomy (Nat.max 3 (String.length d)) (String.length code))
    as [Lt|[Eq|Gt]]; [exfalso | lia | exfalso].
  - specialize (Lowc ltac:(lia)).
    pose proof (pow36_mono (String.length d) (String.length code - 1) ltac:(lia)).
    lia.
  - specialize (Lowd ltac:(lia)).
    pose proof (pow36_mono (String.length code) (String.length d - 1) ltac:(lia)).
    lia.
Qed.

Lemma encode_decode_witness :
  decode "1000" = Ok 46656 /\ encode 46656 = Some "1000".
Proof.
  split; [reflexivity|].
  apply (encode_decode "1000" 46656); [reflexivity | cbn; lia |].
  right. exists "1"%char, "000". split; [reflexivity | discriminate].
Defined.

End CodecExtras.

(** ** Short links end to end *)

Section ShortLinkViews.
Import ShortLinks Api.

(** The resolver never writes and never fails with anything but its 404; a
    redirect goes to a stored recipe whose key the code decodes to. *)
Theorem redirect_short_link_outcomes (base_url short_code : string) (db : DB) :
  after (redirect_short_link base_url short_code) db = db
  /\ (forall e,
        result (redirect_short_link base_url short_code) db = Raise e ->
        e = Http404 "Короткая ссылка не найдена")
  /\ (forall url,
        result (redirect_short_link base_url short_code) db = Ok (redirect url) ->
        exists recipe,
          In recipe (Recipe_objects db)
          /\ decode short_code = Ok (recipe_pk recipe)
          /\ url = base_url ++ "/api/recipes/" ++ str (recipe_pk recipe) ++ "/").
Proof.
  unfold after, result, redirect_short_link, Orm.get_Recipe.
  unfold try_except, bind, lift, query, raise, ret.
  destruct (decode short_code) as [recipe_id|e] eqn:D.
  - destruct (find _ (Recipe_objects db)) as [recipe|] eqn:F; cbn.
    + split; [reflexivity|]. split; [discriminate|].
      intros url [= <-]. exists recipe.
      pose proof (find_pk recipe_pk _ _ _ F) as Pk.
      apply find_some in F. destruct F as [F _].
      split; [exact F|]. split; [now rewrite Pk | reflexivity].
    + split; [reflexivity|]. split; [now intros e [= <-] | discriminate].
  - assert (e = ValueError) as ->.
    { unfold decode in D. revert D. generalize 0.
      induction short_code as [|c s IH]; intros r; cbn [decode_loop];
        [discriminate|].
      destruct (index ALPHABET c); [apply IH | now intros [= <-]]. }
    cbn. split; [reflexivity|]. split; [now intros e [= <-] | discriminate].
Qed.

Lemma redirect_short_link_outcomes_witness :
  after (redirect_short_link "http://localhost" "002") Sample.db0 = Sample.db0
  /\ exists recipe,
       In recipe (Recipe_objects Sample.db0)
       /\ decode "002" = Ok (recipe_pk recipe)
       /\ "http://localhost/api/recipes/2/"
          = "http://localhost" ++ "/api/recipes/" ++ str (recipe_pk recipe) ++ "/".
Proof.
  destruct (redirect_short_link_outcomes "http://localhost" "002" Sample.db0)
    as (A & _ & R).
  split; [exact A|]. apply R. reflexivity.
Defined.

(** The code of the id of a stored recipe resolves to that recipe: [encode]
    returns a code for the id, and the resolver, given that code, redirects
    to the recipe and writes nothing. *)
Theorem encoded_id_resolves (base_url : string) (recipe : Recipe) (db : DB) :
  In recipe (Recipe_objects db) ->
  0 <= recipe_pk recipe ->
  exists short_code,
    encode (recipe_pk recipe) = Some short_code
    /\ result (redirect_short_link base_url short_code) db
       = Ok (redirect (base_url ++ "/api/recipes/"
                       ++ str (recipe_pk recipe) ++ "/"))
    /\ after (redirect_short_link base_url short_code) db = db.
Proof.
  intros Hin Hpk.
  destruct (find_present recipe_pk _ _ Hin) as [stored F].
  pose proof (find_pk recipe_pk _ _ _ F) as Pk.
  destruct (encode_digits _ Hpk) as (d & E & D & _).
  exists (zeros (3 - String.length d) ++ d). split; [exact E|].
  unfold result, after, redirect_short_link, Orm.get_Recipe.
  unfold try_except, bind, lift, query, raise, ret.
  assert (Dz : decode (zeros (3 - String.length d) ++ d)
               = Ok (recipe_pk recipe)).
  { unfold decode in *. now rewrite decode_loop_app, decode_loop_zeros. }
  rewrite Dz, F, Pk. split; reflexivity.
Qed.

Lemma encoded_id_resolves_witness :
  In Sample.bread (Recipe_objects Sample.db0)
  /\ exists short_code,
       encode 2 = Some short_code
       /\ result (redirect_short_link "http://localhost" short_code) Sample.db0
          = Ok (redirect "http://localhost/api/recipes/2/")
       /\ after (redirect_short_link "http://localhost" short_code) Sample.db0
          = Sample.db0.
Proof.
  assert (H : In Sample.bread (Recipe_objects Sample.db0))
    by (right; now left).
  split; [exact H|].
  apply (encoded_id_resolves "http://localhost" Sample.bread Sample.db0 H).
  cbn. lia.
Defined.

End ShortLinkViews.

(** ** The relation views: errors, frames and compositions *)

Section RelationViews.
Import Api Fields.

Lemma existsb_filter {A} (f : A -> bool) (l : list A) :
  existsb f l = negb (Nat.eqb (List.length (filter f l)) 0).
Proof.
  induction l as [|x l IH]; cbn; [reflexivity|].
  destruct (f x); cbn; [reflexivity | exact IH].
Qed.

(** A request for a recipe or a user that is not stored is answered with 404
    after the one lookup, and nothing is written. *)
Theorem unknown_target_is_404 (request_method : method) (request_user : User)
    (pk : Z) (db : DB) :
  (find (fun r => recipe_pk r =? pk) (Recipe_objects db) = None ->
     Views.favorite request_method request_user pk db
     = (Raise (Http404 "No Recipe matches the given query."), db,
        [Select TRecipe])
     /\ Views.shopping_cart request_method request_user pk db
        = (Raise (Http404 "No Recipe matches the given query."), db,
           [Select TRecipe]))
  /\ (find (fun u => user_pk u =? pk) (User_objects db) = None ->
      Views.subscribe request_method request_user pk db
      = (Raise (Http404 "No User matches the given query."), db,
         [Select TUser])).
Proof.
  split.
  - intros F. unfold Views.favorite, Views.shopping_cart, bind.
    rewrite get_Recipe_or_404_run, F. split; reflexivity.
  - intros F. rewrite subscribe_run, F. reflexivity.
Qed.

Lemma unknown_target_is_404_witness :
  Views.favorite POST Sample.alice 7 Sample.db0
  = (Raise (Http404 "No Recipe matches the given query."), Sample.db0,
     [Select TRecipe])
  /\ Views.subscribe DELETE Sample.alice 7 Sample.db0
     = (Raise (Http404 "No User matches the given query."), Sample.db0,
        [Select TUser]).
Proof.
  destruct (unknown_target_is_404 POST Sample.alice 7 Sample.db0) as [R _].
  destruct (unknown_target_is_404 DELETE Sample.alice 7 Sample.db0) as [_ U].
  split; [apply R | apply U]; reflexivity.
Defined.

Lemma set_objects_frame (model : Model) (t : Table Relation) (db : DB) :
  User_objects (set_objects model t db) = User_objects db
  /\ Recipe_objects (set_objects model t db) = Recipe_objects db
  /\ Ingredient_objects (set_objects model t db) = Ingredient_objects db
  /\ RecipeTag_objects (set_objects model t db) = RecipeTag_objects db
  /\ RecipeIngredient_objects (set_objects model t db)
     = RecipeIngredient_objects db.
Proof. destruct model; repeat split. Qed.

(** The database after a request, with the one table it may have changed. *)
Lemma step_set_objects (db : DB) (r : request) :
  let model := match r with
               | favorite _ _ _ => Favorite
               | shopping_cart _ _ _ => ShoppingCart
               | subscribe _ _ _ => Subscription
               end in
  step db r = db \/ exists t, step db r = set_objects model t db.
Proof.
  cbv zeta.
  assert (Hmixin : forall model request_method request_user recipe,
    let view := if is_POST request_method
                then AddRemoveMixin.add model RecipeShortSerializer
                       request_user recipe
                else AddRemoveMixin.remove model request_user recipe in
    after view db = db \/ exists t, after view db = set_objects model t db).
  { intros model mt u recipe view. subst view. unfold after.
    destruct mt; cbn [is_POST].
    - rewrite add_run. cbv zeta.
      destruct (filter _ _) as [|o [|o' rest]]; cbn [fst snd];
        [right; eexists; reflexivity | now left | now left].
    - rewrite remove_run. cbv zeta. cbn [fst snd]. right. eexists. reflexivity. }
  destruct r as [mt u pk | mt u pk | mt u pk]; unfold step, handle.
  - rewrite after_favorite. destruct (find _ _); [apply Hmixin | now left].
  - rewrite after_shopping_cart. destruct (find _ _); [apply Hmixin | now left].
  - unfold after. rewrite subscribe_run.
    destruct (find _ _) as [author|]; [|now left].
    destruct (user_pk u =? user_pk author); [now left|].
    cbv zeta. destruct mt.
    + destruct (filter _ _) as [|o [|o' rest]]; cbn [fst snd];
        [right; eexists; reflexivity | now left | now left].
    + cbn [fst snd]. right. eexists. reflexivity.
Qed.

(** A relation request changes nothing but the table of its own relation:
    users, recipes, ingredients, tags and ingredient associations stay, and
    so do the other two relations. *)
Theorem relation_request_frame (db : DB) (r : request) :
  User_objects (step db r) = User_objects db
  /\ Recipe_objects (step db r) = Recipe_objects db
  /\ Ingredient_objects (step db r) = Ingredient_objects db
  /\ RecipeTag_objects (step db r) = RecipeTag_objects db
  /\ RecipeIngredient_objects (step db r) = RecipeIngredient_objects db
  /\ forall model,
       model <> match r with
                | favorite _ _ _ => Favorite
                | shopping_cart _ _ _ => ShoppingCart
                | subscribe _ _ _ => Subscription
                end ->
       objects model (step db r) = objects model db.
Proof.
  destruct (step_set_objects db r) as [->|[t ->]].
  - repeat split.
  - destruct (set_objects_frame
                (match r with
                 | favorite _ _ _ => Favorite
                 | shopping_cart _ _ _ => ShoppingCart
                 | subscribe _ _ _ => Subscription
                 end) t db) as (-> & -> & -> & -> & ->).
    repeat split. intros model N. rewrite objects_set_objects.
    destruct r, model; congruence.
Qed.

Lemma relation_request_frame_witness :
  objects Favorite (step Sample.db0 (shopping_cart POST Sample.alice 1))
  = objects Favorite Sample.db0.
Proof.
  apply (relation_request_frame Sample.db0 (shopping_cart POST Sample.alice 1)).
  discriminate.
Defined.

End RelationViews.

Section RegistryCompositions.
Import Api Fields.

Variable model : Model.
Variable serializer_class : Recipe -> data.
Variables (user : User) (recipe : Recipe).

Local Abbreviation add := (AddRemoveMixin.add model serializer_class user recipe).
Local Abbreviation remove := (AddRemoveMixin.remove model user recipe).
Local Abbreviation subject := (user_pk user).
Local Abbreviation target := (recipe_pk recipe).

Lemma filter_app_one (l : list Relation) (obj : Relation) :
  filter (Orm.matches subject target) l = [] ->
  rel_user obj = subject -> rel_target obj = target ->
  filter (fun r => negb (Orm.matches subject target r)) (l ++ [obj]) = l.
Proof.
  intros E U T. rewrite filter_app. apply filter_none in E.
  destruct E as [_ ->]. cbn.
  assert (M : Orm.matches subject target obj = true)
    by (apply matches_eq; split; assumption).
  rewrite M. cbn. apply app_nil_r.
Qed.

(** Adding a record for a pair that has none and removing it again answers
    201 and then 204 and leaves the rows of the table as they were; the key
    of the removed record is not handed out again. *)
Theorem add_then_remove (db : DB) :
  count model subject target db = 0%nat ->
  let db1 := after add db in
  let db2 := after remove db1 in
  result add db = Ok (mkResponse (serializer_class recipe) HTTP_201_CREATED)
  /\ result remove db1 = Ok (mkResponse NoData HTTP_204_NO_CONTENT)
  /\ rows (objects model db2) = rows (objects model db)
  /\ last_pk (objects model db2) = last_pk (objects model db) + 1.
Proof.
  intros Z0. cbv zeta. unfold count in Z0.
  assert (E : filter (Orm.matches subject target) (rows (objects model db)) = [])
    by (destruct (filter _ _); [reflexivity | discriminate]).
  unfold result, after. rewrite add_run. cbv zeta. rewrite E. cbn [fst snd].
  split; [reflexivity|].
  rewrite remove_run. cbv zeta. cbn [fst snd].
  unfold count. rewrite !objects_set_same. cbn [rows last_pk].
  rewrite filter_app, E. cbn [filter app].
  assert (M : Orm.matches subject target
                (mkRelation (last_pk (objects model db) + 1) subject target)
              = true) by (apply matches_eq; split; reflexivity).
  rewrite M. cbn [List.length Nat.eqb]. split; [reflexivity|].
  split; [|reflexivity].
  now apply filter_app_one.
Qed.

Lemma remove_absent (db : DB) :
  count model subject target db = 0%nat ->
  remove db
  = (Ok (mkResponse (Errors "Рецепта нет") HTTP_400_BAD_REQUEST), db,
     [Delete (TRelation model)]).
Proof.
  intros C. rewrite remove_run. cbv zeta. rewrite C. cbn [Nat.eqb].
  unfold count in C.
  assert (E : filter (Orm.matches subject target) (rows (objects model db)) = [])
    by (destruct (filter (Orm.matches subject target) _);
        [reflexivity | discriminate]).
  apply filter_none in E. destruct E as [_ ->].
  now rewrite set_objects_same.
Qed.

(** After a removal the pair has no record, so removing once more answers
    400 and changes nothing. *)
Theorem remove_twice (db : DB) :
  let db1 := after remove db in
  remove db1
  = (Ok (mkResponse (Errors "Рецепта нет") HTTP_400_BAD_REQUEST), db1,
     [Delete (TRelation model)]).
Proof.
  cbv zeta. apply remove_absent.
  unfold after. rewrite remove_run. cbv zeta. cbn [fst snd].
  unfold count. rewrite objects_set_same. cbn [rows].
  now rewrite filter_negb_same.
Qed.

(** What [exists()] reports for the pair after [add] and after [remove],
    whatever the table held before. *)
Lemma filter_exists_after (db : DB) :
  result (filter_exists model subject target) (after add db) = Ok true
  /\ result (filter_exists model subject target) (after remove db) = Ok false.
Proof.
  unfold result, filter_exists, query. cbn [fst]. split; f_equal.
  - unfold after. rewrite add_run. cbv zeta.
    destruct (filter _ _) as [|o [|o' rest]] eqn:E; cbn [fst snd].
    + rewrite objects_set_same. cbn [rows]. rewrite existsb_app. cbn.
      assert (M : Orm.matches subject target
                    (mkRelation (last_pk (objects model db) + 1) subject target)
                  = true) by (apply matches_eq; split; reflexivity).
      rewrite M. apply orb_true_r.
    + rewrite existsb_filter, E. reflexivity.
    + rewrite existsb_filter, E. reflexivity.
  - unfold after. rewrite remove_run. cbv zeta. cbn [fst snd].
    rewrite objects_set_same. cbn [rows].
    now rewrite existsb_filter, filter_negb_same.
Qed.

End RegistryCompositions.

Section RegistryCompositionsWitnesses.
Import Api Sample.

Lemma add_then_remove_witness :
  let add := AddRemoveMixin.add Favorite RecipeShortSerializer alice bread in
  let remove := AddRemoveMixin.remove Favorite alice bread in
  count Favorite 1 2 db0 = 0%nat
  /\ result remove (after add db0) = Ok (mkResponse NoData 204)
  /\ rows (Favorite_objects (after remove (after add db0))) = []
  /\ last_pk (Favorite_objects (after remove (after add db0))) = 1.
Proof.
  cbv zeta.
  destruct (add_then_remove Favorite RecipeShortSerializer alice bread db0
              eq_refl) as (_ & R & Rows & Last).
  split; [reflexivity|]. split; [exact R|]. split; [exact Rows | exact Last].
Defined.

End RegistryCompositionsWitnesses.

Section ComputedFields.
Import Api Fields.

(** The flags of a recipe follow the requests: after a POST of the favorite
    or cart action the flag of that relation reads true for the user, after a
    DELETE it reads false, whatever was recorded before. *)
Theorem flags_follow_requests (request_user : User) (recipe : Recipe) (db : DB) :
  In recipe (Recipe_objects db) ->
  let request := Some (Some request_user) in
  let pk := recipe_pk recipe in
  result (get_is_favorited request recipe)
    (step db (favorite POST request_user pk)) = Ok (PyBool true)
  /\ result (get_is_favorited request recipe)
       (step db (favorite DELETE request_user pk)) = Ok (PyBool false)
  /\ result (get_is_in_shopping_cart request recipe)
       (step db (shopping_cart POST request_user pk)) = Ok (PyBool true)
  /\ result (get_is_in_shopping_cart request recipe)
       (step db (shopping_cart DELETE request_user pk)) = Ok (PyBool false).
Proof.
  intros Hin. cbv zeta.
  destruct (find_present recipe_pk _ _ Hin) as [stored F].
  pose proof (find_pk recipe_pk _ _ _ F) as Pk.
  unfold step, handle. rewrite !after_favorite, !after_shopping_cart, F.
  cbn [is_POST].
  destruct (filter_exists_after Favorite RecipeShortSerializer request_user
              stored db) as [FA FR].
  destruct (filter_exists_after ShoppingCart RecipeShortSerializer request_user
              stored db) as [CA CR].
  rewrite Pk in FA, FR, CA, CR.
  unfold result, filter_exists, query in FA, FR, CA, CR. cbn [fst] in *.
  injection FA as FA. injection FR as FR.
  injection CA as CA. injection CR as CR.
  unfold result, get_is_favorited, get_is_in_shopping_cart, filter_exists,
    bind, query, ret.
  cbn [fst objects] in *. rewrite FA, FR, CA, CR. repeat split.
Qed.

Lemma flags_follow_requests_witness :
  In Sample.bread (Recipe_objects Sample.db0)
  /\ result (get_is_favorited (Some (Some Sample.bob)) Sample.bread)
       (step Sample.db0 (favorite POST Sample.bob 2)) = Ok (PyBool true)
  /\ result (get_is_in_shopping_cart (Some (Some Sample.alice)) Sample.bread)
       (step Sample.db_cart (shopping_cart DELETE Sample.alice 2))
     = Ok (PyBool false).
Proof.
  assert (H : In Sample.bread (Recipe_objects Sample.db0)) by (right; now left).
  split; [exact H|]. split.
  - apply (flags_follow_requests Sample.bob Sample.bread Sample.db0 H).
  - apply (flags_follow_requests Sample.alice Sample.bread Sample.db_cart).
    right; now left.
Defined.

(** Unsubscribing from another stored user: with a subscription it is deleted
    and the answer is 204; without one the answer is 400 and nothing
    changes. *)
Theorem unsubscribe_contract (request_user author : User) (pk : Z) (db : DB) :
  find (fun u => user_pk u =? pk) (User_objects db) = Some author ->
  user_pk request_user <> user_pk author ->
  let u := user_pk request_user in
  let a := user_pk author in
  let t := Subscription_objects db in
  ((0 < count Subscription u a db)%nat ->
     Views.subscribe DELETE request_user pk db
     = (Ok (mkResponse NoData HTTP_204_NO_CONTENT),
        set_objects Subscription
          (mkTable (filter (fun r => negb (Orm.matches u a r)) (rows t))
             (last_pk t)) db,
        [Select TUser; Delete (TRelation Subscription)])
     /\ count Subscription u a
          (after (Views.subscribe DELETE request_user pk) db) = 0%nat)
  /\ (count Subscription u a db = 0%nat ->
      Views.subscribe DELETE request_user pk db
      = (Ok (mkResponse (Errors "Вы не подписаны") HTTP_400_BAD_REQUEST), db,
         [Select TUser; Delete (TRelation Subscription)])).
Proof.
  intros F N. cbv zeta.
  assert (R := subscribe_run DELETE request_user pk db).
  rewrite F in R.
  destruct (Z.eqb_spec (user_pk request_user) (user_pk author)); [contradiction|].
  cbv zeta in R. split.
  - intros P. unfold after. rewrite R. cbn [fst snd].
    destruct (count Subscription _ _ db) eqn:C; [lia|]. cbn [Nat.eqb].
    split; [reflexivity|].
    unfold count. rewrite objects_set_same. cbn [rows].
    now rewrite filter_negb_same.
  - intros Z0. rewrite R, Z0. cbn [Nat.eqb]. unfold count in Z0.
    assert (E : filter (Orm.matches (user_pk request_user) (user_pk author))
                  (rows (Subscription_objects db)) = [])
      by (cbn [objects] in Z0;
          destruct (filter (Orm.matches _ _) _); [reflexivity | discriminate]).
    apply filter_none in E. destruct E as [_ ->].
    change (Subscription_objects db) with (objects Subscription db).
    now rewrite set_objects_same.
Qed.

Lemma unsubscribe_contract_witness :
  Views.subscribe DELETE Sample.alice 2 Sample.db_busy
  = (Ok (mkResponse NoData 204),
     set_objects Subscription (mkTable [mkRelation 2 2 1] 2) Sample.db_busy,
     [Select TUser; Delete (TRelation Subscription)])
  /\ Views.subscribe DELETE Sample.bob 1 Sample.db0
     = (Ok (mkResponse (Errors "Вы не подписаны") 400), Sample.db0,
        [Select TUser; Delete (TRelation Subscription)]).
Proof.
  split.
  - apply (unsubscribe_contract Sample.alice Sample.bob 2 Sample.db_busy
             eq_refl); [discriminate | vm_compute; lia].
  - apply (unsubscribe_contract Sample.bob Sample.alice 1 Sample.db0 eq_refl);
      [discriminate | reflexivity].
Defined.


(** Both invariants hold in every reachable state. *)
Lemma reachable_kept (db : DB) :
  reachable db ->
  (forall model, unique_together model db) /\ no_self_subscription db.
Proof.
  induction 1 as [db F | db r R IH]; [|now apply step_invariant].
  split.
  - intros m user target. unfold count. rewrite F. cbn. lia.
  - intros x. change (Subscription_objects db) with (objects Subscription db).
    rewrite F. intros [].
Qed.

(** The subscription flag follows the requests: true for the subscriber after
    a POST on another stored user, false after a DELETE; and in a reachable
    state it never reads true for a user on themself. *)
Theorem subscription_flag (request_user author : User) (db : DB) :
  (In author (User_objects db) ->
   user_pk request_user <> user_pk author ->
   result (get_is_subscribed (Some (Some request_user)) author)
     (step db (subscribe POST request_user (user_pk author))) = Ok true
   /\ result (get_is_subscribed (Some (Some request_user)) author)
        (step db (subscribe DELETE request_user (user_pk author))) = Ok false)
  /\ (reachable db ->
      result (get_is_subscribed (Some (Some request_user)) request_user) db
      = Ok false).
Proof.
  split.
  - intros Hin N.
    destruct (find_present user_pk _ _ Hin) as [stored F].
    pose proof (find_pk user_pk _ _ _ F) as Pk.
    unfold step, handle, after. rewrite !subscribe_run, F, Pk.
    destruct (Z.eqb_spec (user_pk request_user) (user_pk author));
      [contradiction|].
    cbv zeta. unfold result, get_is_subscribed, filter_exists, query.
    cbn [fst]. split; f_equal.
    + destruct (filter _ _) as [|o [|o' rest]] eqn:E; cbn [fst snd].
      * rewrite objects_set_same. cbn [rows]. rewrite existsb_app. cbn.
        unfold Orm.matches. cbn. rewrite !Z.eqb_refl. apply orb_true_r.
      * cbn [objects]. rewrite existsb_filter, E. reflexivity.
      * cbn [objects]. rewrite existsb_filter, E. reflexivity.
    + cbn [fst snd]. rewrite objects_set_same. cbn [rows].
      now rewrite existsb_filter, filter_negb_same.
  - intros R. apply reachable_kept in R. destruct R as [_ S].
    unfold result, get_is_subscribed, filter_exists, query. cbn [fst objects].
    f_equal. destruct (existsb _ _) eqn:E; [|reflexivity].
    apply existsb_exists in E. destruct E as (x & Hx & M).
    apply matches_eq in M. destruct M as [U T].
    exfalso. apply (S x Hx). congruence.
Qed.

Lemma subscription_flag_witness :
  reachable Sample.db_busy
  /\ result (get_is_subscribed (Some (Some Sample.alice)) Sample.alice)
       Sample.db_busy = Ok false
  /\ result (get_is_subscribed (Some (Some Sample.alice)) Sample.bob)
       (step Sample.db0 (subscribe POST Sample.alice 2)) = Ok true.
Proof.
  assert (R : reachable Sample.db_busy).
  { apply reachable_run. apply reachable_fresh. intros []; reflexivity. }
  split; [exact R|]. split.
  - apply (subscription_flag Sample.alice Sample.alice Sample.db_busy). exact R.
  - apply (subscription_flag Sample.alice Sample.bob Sample.db0).
    + right; now left.
    + discriminate.
Defined.

End ComputedFields.

(** ** The shopping list: totals, order and isolation *)

Section ShoppingListMore.
Import Views Aggregation Api Totals.

Lemma sum_add_to_group (name unit : string) (amount : Z) (groups : list item) :
  sum (map total (add_to_group name unit amount groups))
  = sum (map total groups) + amount.
Proof.
  induction groups as [|g rest IH]; cbn [add_to_group map sum total].
  - lia.
  - destruct (same_group name unit g); cbn [map sum total]; lia.
Qed.

(** Nothing is lost or counted twice: the totals of the report add up to the
    amounts of all the joined rows. *)
Theorem totals_add_up (user : User) (db : DB) :
  sum (map total (annotate_total (cart_rows user db)))
  = sum (map snd (cart_rows user db)).
Proof.
  unfold annotate_total.
  enough (G : forall joined groups,
             sum (map total
                    (fold_left (fun groups '(n, u, amount) =>
                                  add_to_group n u amount groups)
                       joined groups))
             = sum (map total groups) + sum (map snd joined))
    by (rewrite G; reflexivity).
  induction joined as [|[[n u] a] rest IH]; intros groups; cbn [fold_left].
  - cbn. lia.
  - rewrite IH, sum_add_to_group. cbn [map snd sum]. lia.
Qed.

End ShoppingListMore.

Section ShoppingListIsolation.
Import Views Aggregation Api.

Lemma cart_rows_ext (user : User) (db db' : DB) :
  RecipeIngredient_objects db' = RecipeIngredient_objects db ->
  Recipe_objects db' = Recipe_objects db ->
  Ingredient_objects db' = Ingredient_objects db ->
  (forall recipe,
     filter (fun e => (rel_target e =? recipe_pk recipe)
                      && (rel_user e =? user_pk user))
       (rows (ShoppingCart_objects db'))
     = filter (fun e => (rel_target e =? recipe_pk recipe)
                        && (rel_user e =? user_pk user))
         (rows (ShoppingCart_objects db))) ->
  cart_rows user db' = cart_rows user db.
Proof.
  intros RI R I C. unfold cart_rows. rewrite RI, R, I.
  apply flat_map_ext. intros ri. apply flat_map_ext. intros recipe.
  now rewrite C.
Qed.

(** The entries of one user that a cart action of another user leaves. *)
Lemma other_user_entries (user other : User) (recipe target : Recipe)
    (request_method : method) (db : DB) :
  user_pk other <> user_pk user ->
  let view := if is_POST request_method
              then AddRemoveMixin.add ShoppingCart RecipeShortSerializer
                     other target
              else AddRemoveMixin.remove ShoppingCart other target in
  filter (fun e => (rel_target e =? recipe_pk recipe)
                   && (rel_user e =? user_pk user))
    (rows (ShoppingCart_objects (after view db)))
  = filter (fun e => (rel_target e =? recipe_pk recipe)
                     && (rel_user e =? user_pk user))
      (rows (ShoppingCart_objects db)).
Proof.
  intros N. cbv zeta. unfold after. destruct request_method; cbn [is_POST].
  - rewrite add_run. cbv zeta.
    destruct (filter (Orm.matches _ _) _) as [|o [|o' rest]]; cbn [fst snd];
      try reflexivity.
    cbn [set_objects ShoppingCart_objects rows objects].
    rewrite filter_app. cbn [filter rel_user rel_target].
    destruct (Z.eqb_spec (user_pk other) (user_pk user)); [contradiction|].
    rewrite andb_false_r. apply app_nil_r.
  - rewrite remove_run. cbv zeta. cbn [fst snd].
    cbn [set_objects ShoppingCart_objects rows objects].
    induction (rows (ShoppingCart_objects db)) as [|e rest IH];
      [reflexivity|].
    cbn [filter].
    destruct (Orm.matches (user_pk other) (recipe_pk target) e) eqn:M;
      cbn [negb filter]; rewrite IH; [|reflexivity].
    apply matches_eq in M. destruct M as [U _].
    destruct (Z.eqb_spec (rel_user e) (user_pk user)); [congruence|].
    now rewrite andb_false_r.
Qed.

(** The shopping list of a user depends on that user's cart only: it is the
    same before and after any favorite or subscribe request, and any cart
    request of another user. *)
Theorem shopping_list_isolated (order : list item -> list item)
    (mime_encode : string -> string) (user : User) (db : DB) (r : request) :
  (forall request_method other pk,
     r = shopping_cart request_method other pk ->
     user_pk other <> user_pk user) ->
  result (download_shopping_cart order mime_encode user) (step db r)
  = result (download_shopping_cart order mime_encode user) db.
Proof.
  intros H. unfold result. rewrite !download_shopping_cart_run. cbn [fst].
  enough (E : cart_rows user (step db r) = cart_rows user db)
    by now rewrite E.
  destruct (step_set_objects db r) as [->|[t St]]; [reflexivity|].
  destruct (set_objects_frame
              (match r with
               | favorite _ _ _ => Favorite
               | shopping_cart _ _ _ => ShoppingCart
               | subscribe _ _ _ => Subscription
               end) t db) as (_ & R & I & _ & RI).
  apply cart_rows_ext; try (rewrite St; assumption).
  intros recipe.
  destruct r as [mt u pk | mt u pk | mt u pk].
  - rewrite St. reflexivity.
  - specialize (H mt u pk eq_refl).
    unfold step, handle. rewrite after_shopping_cart.
    destruct (find _ _) as [target|]; [|reflexivity].
    now apply other_user_entries.
  - rewrite St. reflexivity.
Qed.

Lemma shopping_list_isolated_witness :
  result (download_shopping_cart (@rev item) (fun value => value) Sample.alice)
    (step Sample.db_cart (shopping_cart POST Sample.bob 1))
  = result (download_shopping_cart (@rev item) (fun value => value)
              Sample.alice)
      Sample.db_cart.
Proof.
  apply (shopping_list_isolated (@rev item) (fun value => value) Sample.alice
           Sample.db_cart (shopping_cart POST Sample.bob 1)).
  intros request_method other pk [= _ <- _]. discriminate.
Defined.

End ShoppingListIsolation.

Section ShoppingListOrder.
Import Views Aggregation Api.

Lemma group_total_Permutation (name unit : string)
    (joined joined' : list (string * string * Z)) :
  Permutation joined joined' ->
  group_total name unit joined = group_total name unit joined'.
Proof.
  unfold group_total.
  induction 1 as [|x l l' P IH|x y l|l l' l'' P1 IH1 P2 IH2]; cbn [filter].
  - reflexivity.
  - destruct (in_group name unit x); cbn [map fold_right]; now rewrite IH.
  - destruct (in_group name unit x), (in_group name unit y);
      cbn [map fold_right]; lia.
  - congruence.
Qed.

(** The order in which the database returns the joined rows only changes the
    order of the lines of the report, not the lines. *)
Theorem report_lines_up_to_order (joined joined' : list (string * string * Z)) :
  Permutation joined joined' ->
  Permutation (map line (annotate_total joined))
    (map line (annotate_total joined')).
Proof.
  intros P. apply Permutation_map.
  destruct (annotate_total_groups joined) as [N G].
  destruct (annotate_total_groups joined') as [N' G'].
  apply NoDup_Permutation.
  - eapply NoDup_map_inv. exact N.
  - eapply NoDup_map_inv. exact N'.
  - intros it. rewrite G, G'.
    rewrite (group_total_Permutation _ _ _ _ P).
    split; intros [[a Hin] T]; (split; [exists a | exact T]).
    + eapply Permutation_in; eassumption.
    + eapply Permutation_in; [apply Permutation_sym|]; eassumption.
Qed.

Lemma report_lines_up_to_order_witness :
  Permutation
    (map line (annotate_total [("a", "g", 1); ("b", "g", 2); ("a", "g", 3)]))
    (map line (annotate_total [("b", "g", 2); ("a", "g", 1); ("a", "g", 3)])).
Proof.
  apply (report_lines_up_to_order
           [("a", "g", 1); ("b", "g", 2); ("a", "g", 3)]
           [("b", "g", 2); ("a", "g", 1); ("a", "g", 3)]).
  apply perm_swap.
Defined.

End ShoppingListOrder.

(** ** Updating a recipe: what else it does and does not do *)

Section UpdateMore.
Import RecipeSerializer RecipeTags Api.

Variable amount_max : Z.
Variable set_order : list Z -> list Z.
Local Abbreviation within_range := (RecipeSerializer.within_range amount_max).
Local Abbreviation tags_set := (RecipeSerializer.tags_set set_order).
Local Abbreviation bulk_create := (RecipeSerializer.bulk_create amount_max).
Local Abbreviation update := (RecipeSerializer.update amount_max set_order).
Hypothesis set_order_perm : forall l, Permutation (set_order l) l.

Lemma after_bind {A B} (m : M A) (k : A -> M B) (db : DB) :
  after (bind m k) db
  = match result m db with
    | Ok a => after (k a) (after m db)
    | Raise _ => after m db
    end.
Proof.
  unfold after, result, bind. destruct (m db) as [[[a|e] db1] l1]; cbn [fst snd].
  - destruct (k a db1) as [[o db2] l2]. reflexivity.
  - reflexivity.
Qed.

Lemma result_bind {A B} (m : M A) (k : A -> M B) (db : DB) :
  result (bind m k) db
  = match result m db with
    | Ok a => result (k a) (after m db)
    | Raise e => Raise e
    end.
Proof.
  unfold after, result, bind. destruct (m db) as [[[a|e] db1] l1]; cbn [fst snd].
  - destruct (k a db1) as [[o db2] l2]. reflexivity.
  - reflexivity.
Qed.

(** The instance [update] saves: the keys present in the validated data are
    set, the others, the primary key and the author are kept. *)
Local Abbreviation updated instance vd :=
  (mkRecipe (recipe_pk instance)
     (setattr (vd_name vd) (recipe_name instance))
     (setattr (vd_text vd) (text instance))
     (setattr (vd_cooking_time vd) (cooking_time instance))
     (setattr (vd_image vd) (image instance))
     (author instance)).

Lemma mem_In (x : Z) (l : list Z) : mem x l = true <-> In x l.
Proof.
  unfold mem. rewrite existsb_exists. split.
  - intros (y & Hy & E). apply Z.eqb_eq in E. now subst.
  - intros H. exists x. split; [assumption | apply Z.eqb_refl].
Qed.

Lemma In_dedup (x : Z) (l : list Z) : In x (dedup l) <-> In x l.
Proof.
  induction l as [|y l IH]; cbn [dedup In]; [tauto|].
  rewrite filter_In, IH, negb_true_iff, Z.eqb_neq.
  destruct (Z.eq_dec y x); [tauto|]. split; [tauto|].
  intros [?|?]; [contradiction|]. right. split; [assumption | congruence].
Qed.

Lemma NoDup_dedup (l : list Z) : NoDup (dedup l).
Proof.
  induction l as [|y l IH]; cbn [dedup]; constructor.
  - rewrite filter_In, negb_true_iff, Z.eqb_neq. tauto.
  - now apply NoDup_filter.
Qed.

Lemma number_tags (pk : Z) (tags : list Z) :
  forall k,
    map rt_tag (filter (fun r => rt_recipe r =? pk)
                  (number (fun key tag => mkRecipeTag key pk tag) k tags))
    = tags.
Proof.
  induction tags as [|t rest IH]; intros k; cbn [number filter map];
    [reflexivity|].
  cbn [rt_recipe]. rewrite Z.eqb_refl. cbn [map rt_tag]. now rewrite IH.
Qed.

Lemma number_other (pk other : Z) (tags : list Z) :
  other <> pk ->
  forall k,
    filter (fun r => rt_recipe r =? other)
      (number (fun key tag => mkRecipeTag key pk tag) k tags) = [].
Proof.
  intros N. induction tags as [|t rest IH]; intros k; cbn [number filter];
    [reflexivity|].
  cbn [rt_recipe]. destruct (Z.eqb_spec pk other); [congruence | apply IH].
Qed.

Lemma set_order_nil : set_order [] = [].
Proof. apply Permutation_nil, Permutation_sym, set_order_perm. Qed.

Lemma In_set_order (x : Z) (l : list Z) : In x (set_order l) <-> In x l.
Proof.
  split; apply Permutation_in;
    [apply set_order_perm | apply Permutation_sym, set_order_perm].
Qed.

Lemma NoDup_set_order (l : list Z) : NoDup l -> NoDup (set_order l).
Proof. apply Permutation_NoDup, Permutation_sym, set_order_perm. Qed.

(** The tag rows after [instance.tags.set(objs)]. *)
Lemma tags_set_rows (instance : Recipe) (objs : list Z) (db : DB) :
  let old_ids := tags_all instance db in
  let stale := filter (fun t => negb (mem t objs)) old_ids in
  let new_objs := dedup (filter (fun t => negb (mem t old_ids)) objs) in
  result (tags_set instance objs) db = Ok tt
  /\ rows (RecipeTag_objects (after (tags_set instance objs) db))
     = (filter (fun r => negb ((rt_recipe r =? recipe_pk instance)
                               && mem (rt_tag r) stale))
          (rows (RecipeTag_objects db))
        ++ number (fun pk tag => mkRecipeTag pk (recipe_pk instance) tag)
             (last_pk (RecipeTag_objects db) + 1) (set_order new_objs))%list.
Proof.
  cbv zeta. unfold tags_all, tags_set, result, after, bind, query, execute, ret.
  set (old_ids := map rt_tag _).
  destruct (filter (fun t => negb (mem t objs)) old_ids) as [|s stale] eqn:Es;
    destruct (dedup _) as [|n new_objs]; cbn [fst snd];
    (split; [reflexivity|]); rewrite ?set_order_nil;
    cbn [RecipeTag_objects set_RecipeTag_objects rows last_pk number].
  - rewrite app_nil_r. symmetry. apply forallb_filter_id.
    apply forallb_forall. intros r _. cbn [mem existsb]. now rewrite andb_false_r.
  - f_equal. symmetry. apply forallb_filter_id.
    apply forallb_forall. intros r _. cbn [mem existsb]. now rewrite andb_false_r.
  - now rewrite app_nil_r.
  - reflexivity.
Qed.

Lemma tags_set_ok (instance : Recipe) (objs : list Z) (db : DB) :
  result (tags_set instance objs) db = Ok tt.
Proof.
  unfold tags_set, result, bind, query, execute, ret.
  destruct (filter (fun t => negb (mem t objs)) _) as [|s stale];
    destruct (dedup _) as [|n new_objs]; reflexivity.
Qed.

Lemma tags_set_frame (instance : Recipe) (objs : list Z) (db : DB) :
  exists t, after (tags_set instance objs) db = set_RecipeTag_objects t db.
Proof.
  unfold tags_set, after, bind, query, execute, ret.
  destruct (filter (fun t => negb (mem t objs)) _) as [|s stale];
    destruct (dedup _) as [|n new_objs]; cbn [fst snd].
  - exists (RecipeTag_objects db). now destruct db.
  - eexists. reflexivity.
  - eexists. reflexivity.
  - eexists. reflexivity.
Qed.

Lemma bulk_create_frame (instance : Recipe) (items : list ingredient_item)
    (db : DB) :
  exists t, after (bulk_create instance items) db
            = set_RecipeIngredient_objects t db.
Proof.
  unfold bulk_create, after. destruct items as [|it rest]; cbn [fst snd].
  - exists (RecipeIngredient_objects db). now destruct db.
  - cbv zeta. destruct (negb (within_range _)); cbn [fst snd];
      [exists (RecipeIngredient_objects db); now destruct db|].
    destruct (insertable db _); cbn [fst snd].
    + eexists. reflexivity.
    + exists (RecipeIngredient_objects db). now destruct db.
Qed.

Ltac step_bind :=
  match goal with
  | |- context [after (bind ?m ?k) ?d] => rewrite (after_bind m k d)
  | |- context [result (bind ?m ?k) ?d] => rewrite (result_bind m k d)
  end.

(** The database after [update], step by step. An insert that is refused
    ends the update after the deletion. *)
Lemma update_after (instance : Recipe) (vd : validated_data) (db : DB) :
  let inst := updated instance vd in
  let db1 := after (save inst) db in
  let db2 := match vd_tags vd with
             | Some tags => after (tags_set inst tags) db1
             | None => db1
             end in
  after (update instance vd) db
  = match vd_recipeingredient_set vd with
    | Some items =>
        after (bulk_create inst items)
          (after (recipeingredient_set_delete inst) db2)
    | None => db2
    end.
Proof.
  cbv zeta. unfold update. cbv zeta.
  step_bind.
  change (result (super_update instance vd) db) with (Ok (updated instance vd)).
  change (after (super_update instance vd) db)
    with (after (save (updated instance vd)) db).
  cbv beta iota. step_bind.
  assert (T : result (match vd_tags vd with
                      | Some tags => tags_set (updated instance vd) tags
                      | None => ret tt
                      end) (after (save (updated instance vd)) db) = Ok tt).
  { destruct (vd_tags vd); [apply tags_set_ok | reflexivity]. }
  rewrite T.
  replace (after (match vd_tags vd with
                  | Some tags => tags_set (updated instance vd) tags
                  | None => ret tt
                  end) (after (save (updated instance vd)) db))
    with (match vd_tags vd with
          | Some tags => after (tags_set (updated instance vd) tags)
                           (after (save (updated instance vd)) db)
          | None => after (save (updated instance vd)) db
          end) by (destruct (vd_tags vd); reflexivity).
  cbv beta iota. step_bind.
  destruct (vd_recipeingredient_set vd) as [items|]; [|reflexivity].
  repeat step_bind.
  change (result (recipeingredient_set_delete (updated instance vd)) ?d)
    with (@Ok unit tt).
  cbv iota beta.
  repeat step_bind.
  destruct (result (bulk_create _ _) _); reflexivity.
Qed.

(** The tables [update] can change are those of the recipes, of their tags
    and of their ingredients. *)
Lemma update_shape (instance : Recipe) (vd : validated_data) (db : DB) :
  let inst := updated instance vd in
  let db1 := after (save inst) db in
  exists t1 t2,
    after (update instance vd) db
    = mkDB (User_objects db) (Recipe_objects db1) (Ingredient_objects db)
        t1 t2
        (Favorite_objects db) (ShoppingCart_objects db)
        (Subscription_objects db)
    /\ t1 = match vd_tags vd with
            | Some tags => RecipeTag_objects (after (tags_set inst tags) db1)
            | None => RecipeTag_objects db
            end
    /\ (vd_recipeingredient_set vd = None -> t2 = RecipeIngredient_objects db).
Proof.
  cbv zeta. rewrite update_after. cbv zeta.
  set (inst := updated instance vd).
  set (db1 := after (save inst) db).
  assert (S1 : db1 = set_Recipe_objects (Recipe_objects db1) db) by reflexivity.
  set (db2 := match vd_tags vd with
              | Some tags => after (tags_set inst tags) db1
              | None => db1
              end).
  assert (S2 : db2 = set_RecipeTag_objects (RecipeTag_objects db2) db1).
  { subst db2. destruct (vd_tags vd) as [tags|].
    - destruct (tags_set_frame inst tags db1) as [t ->]. reflexivity.
    - now destruct db1. }
  destruct (vd_recipeingredient_set vd) as [items|].
  - destruct (bulk_create_frame inst items
                (after (recipeingredient_set_delete inst) db2)) as [t ->].
    change (after (recipeingredient_set_delete inst) db2)
      with (set_RecipeIngredient_objects
              (mkTable
                 (filter (fun r => negb (ri_recipe r =? recipe_pk inst))
                    (rows (RecipeIngredient_objects db2)))
                 (last_pk (RecipeIngredient_objects db2))) db2).
    exists (RecipeTag_objects db2), t. split; [|split; [|discriminate]].
    + rewrite S2, S1. reflexivity.
    + subst db2. destruct (vd_tags vd); reflexivity.
  - exists (RecipeTag_objects db2), (RecipeIngredient_objects db).
    split; [|split; [|reflexivity]].
    + rewrite S2, S1. reflexivity.
    + subst db2. destruct (vd_tags vd); reflexivity.
Qed.

(** An update never touches the users, the ingredients or the three
    relations: a recipe stays in the favorites and carts it was in. A key
    that is absent from the validated data leaves its table alone: without
    [ingredients] the ingredient associations of all recipes are kept,
    without [tags] the tag rows are. *)
Theorem update_frame (instance : Recipe) (vd : validated_data) (db : DB) :
  let db' := after (update instance vd) db in
  User_objects db' = User_objects db
  /\ Ingredient_objects db' = Ingredient_objects db
  /\ (forall model, objects model db' = objects model db)
  /\ (vd_recipeingredient_set vd = None ->
      RecipeIngredient_objects db' = RecipeIngredient_objects db)
  /\ (vd_tags vd = None -> RecipeTag_objects db' = RecipeTag_objects db).
Proof.
  cbv zeta. destruct (update_shape instance vd db) as (t1 & t2 & -> & T1 & T2).
  cbn [User_objects Ingredient_objects RecipeIngredient_objects
         RecipeTag_objects].
  split; [reflexivity|]. split; [reflexivity|]. split; [|split].
  - intros []; reflexivity.
  - exact T2.
  - intros N. now rewrite N in T1.
Qed.


Lemma kept_tags (pk : Z) (objs : list Z) (st : Z -> bool)
    (l : list RecipeTag) :
  (forall r, In r l -> rt_recipe r = pk ->
             st (rt_tag r) = negb (mem (rt_tag r) objs)) ->
  map rt_tag
    (filter (fun r => rt_recipe r =? pk)
       (filter (fun r => negb ((rt_recipe r =? pk) && st (rt_tag r))) l))
  = filter (fun t => mem t objs)
      (map rt_tag (filter (fun r => rt_recipe r =? pk) l)).
Proof.
  induction l as [|r rest IH]; intros St; [reflexivity|].
  assert (IH' := IH (fun x Hx => St x (or_intror Hx))).
  cbn [filter].
  destruct (Z.eqb_spec (rt_recipe r) pk) as [Er|Er]; cbn [andb].
  - rewrite (St r (or_introl eq_refl) Er), negb_involutive.
    destruct (mem (rt_tag r) objs) eqn:Mo; cbn [filter map].
    + destruct (Z.eqb_spec (rt_recipe r) pk); [|contradiction].
      cbn [map]. rewrite Mo. now f_equal.
    + rewrite Mo. exact IH'.
  - cbn [negb filter].
    destruct (Z.eqb_spec (rt_recipe r) pk); [contradiction | exact IH'].
Qed.

(** The tags of a recipe after [tags.set]: the old ones that are listed,
    then the listed ones that are new, each once. *)
Lemma tags_all_after_set (instance : Recipe) (objs : list Z) (db : DB) :
  tags_all instance (after (tags_set instance objs) db)
  = (filter (fun t => mem t objs) (tags_all instance db)
     ++ set_order
          (dedup (filter (fun t => negb (mem t (tags_all instance db))) objs)))%list.
Proof.
  destruct (tags_set_rows instance objs db) as [_ R]. cbv zeta in R.
  unfold tags_all at 1. rewrite R, filter_app, map_app, number_tags.
  f_equal.
  apply (kept_tags (recipe_pk instance) objs
           (fun t => mem t (filter (fun t => negb (mem t objs))
                              (tags_all instance db)))).
  intros r Hr Er.
  destruct (mem (rt_tag r) objs) eqn:Mo; cbn [negb].
  - destruct (mem _ (filter _ _)) eqn:Ms; [|reflexivity].
    apply mem_In, filter_In in Ms. destruct Ms as [_ Ms].
    rewrite Mo in Ms. discriminate.
  - apply mem_In, filter_In. split; [|now rewrite Mo].
    unfold tags_all. apply in_map, filter_In. split; [assumption | lia].
Qed.

Lemma other_tags (pk other : Z) (st : Z -> bool) (l : list RecipeTag) :
  other <> pk ->
  filter (fun r => rt_recipe r =? other)
    (filter (fun r => negb ((rt_recipe r =? pk) && st (rt_tag r))) l)
  = filter (fun r => rt_recipe r =? other) l.
Proof.
  intros N. induction l as [|r rest IH]; [reflexivity|].
  cbn [filter].
  destruct (Z.eqb_spec (rt_recipe r) pk) as [Er|Er]; cbn [andb].
  - destruct (Z.eqb_spec (rt_recipe r) other) as [Eo|Eo]; [congruence|].
    destruct (negb _); cbn [filter]; [|exact IH].
    destruct (Z.eqb_spec (rt_recipe r) other); [congruence | exact IH].
  - cbn [negb filter]. destruct (rt_recipe r =? other); [f_equal|]; exact IH.
Qed.

Lemma tags_all_other (instance other : Recipe) (objs : list Z) (db : DB) :
  recipe_pk other <> recipe_pk instance ->
  tags_all other (after (tags_set instance objs) db) = tags_all other db.
Proof.
  intros N. destruct (tags_set_rows instance objs db) as [_ R]. cbv zeta in R.
  unfold tags_all. rewrite R, filter_app, map_app.
  rewrite (number_other (recipe_pk instance) (recipe_pk other)) by assumption.
  cbn [map]. rewrite app_nil_r. f_equal.
  apply (other_tags (recipe_pk instance) (recipe_pk other)
           (fun t => mem t (filter (fun t => negb (mem t objs))
                              (tags_all instance db)))).
  exact N.
Qed.

(** An update that carries tags leaves the recipe with exactly the listed
    tags, each once when the stored rows had no duplicate; the tags of the
    other recipes are as before. *)
Theorem update_replaces_tags (instance : Recipe) (vd : validated_data)
    (tags : list Z) (db : DB) :
  vd_tags vd = Some tags ->
  let db' := after (update instance vd) db in
  (forall t, In t (tags_all instance db') <-> In t tags)
  /\ (NoDup (tags_all instance db) -> NoDup (tags_all instance db'))
  /\ (forall other,
        recipe_pk other <> recipe_pk instance ->
        tags_all other db' = tags_all other db).
Proof.
  intros Ht. cbv zeta.
  destruct (update_shape instance vd db) as (t1 & t2 & E & T1 & _).
  rewrite Ht in T1. cbv zeta in T1.
  set (inst := updated instance vd) in *.
  set (db1 := after (save inst) db) in *.
  assert (Same : forall r, tags_all r (after (update instance vd) db)
                           = tags_all r (after (tags_set inst tags) db1)).
  { intros r. unfold tags_all. rewrite E. cbn [RecipeTag_objects].
    now rewrite T1. }
  assert (Old : forall r, tags_all r db1 = tags_all r db) by reflexivity.
  assert (Key : tags_all instance (after (tags_set inst tags) db1)
                = (filter (fun t => mem t tags) (tags_all instance db)
                   ++ set_order
                        (dedup (filter (fun t => negb (mem t (tags_all instance db)))
                                  tags)))%list)
    by (rewrite <- (Old instance); apply (tags_all_after_set inst tags db1)).
  split; [|split].
  - intros t.
    rewrite Same, Key, in_app_iff, filter_In, In_set_order, In_dedup, filter_In.
    rewrite negb_true_iff, mem_In.
    destruct (mem t (tags_all instance db)) eqn:M.
    + apply mem_In in M. split; [intros [[_ H]|[_ H]] | intros H];
        [assumption | discriminate | left; now split].
    + split; [intros [[H _]|[H _]] | intros H];
        [apply mem_In in H; congruence | assumption | right; now split].
  - intros N. rewrite Same, Key. apply NoDup_app.
    + now apply NoDup_filter.
    + apply NoDup_set_order, NoDup_dedup.
    + intros t H1 H2. apply filter_In in H1. destruct H1 as [H1 _].
      apply In_set_order, In_dedup, filter_In in H2. destruct H2 as [_ H2].
      apply negb_true_iff in H2. apply mem_In in H1. congruence.
  - intros other N. rewrite Same.
    rewrite <- (Old other). now apply (tags_all_other inst other tags db1).
Qed.

End UpdateMore.

Section UpdateMoreWitness.
Import RecipeSerializer RecipeTags Api.

Lemma update_frame_witness :
  RecipeIngredient_objects
    (after (update 2147483647 (fun l => l) Sample.pancakes
              (mkValidated (Some "Оладьи") None None None None None))
       Sample.db_a2)
  = RecipeIngredient_objects Sample.db_a2.
Proof.
  apply (update_frame 2147483647 (fun l => l) Sample.pancakes
           (mkValidated (Some "Оладьи") None None None None None)
           Sample.db_a2).
  reflexivity.
Defined.

Lemma update_replaces_tags_witness :
  let db' := after (update 2147483647 (@rev Z) Sample.pancakes
                      (mkValidated None None None None (Some [7; 5; 7]) None))
               Sample.db_a2 in
  (forall t, In t (tags_all Sample.pancakes db') <-> In t [7; 5; 7])
  /\ NoDup (tags_all Sample.pancakes db').
Proof.
  cbv zeta.
  destruct (update_replaces_tags 2147483647 (@rev Z)
              (fun l => Permutation_sym (Permutation_rev l)) Sample.pancakes
              (mkValidated None None None None (Some [7; 5; 7]) None)
              [7; 5; 7] Sample.db_a2 eq_refl) as (Hin & Hnd & _).
  split; [exact Hin|]. apply Hnd. constructor.
Defined.

End UpdateMoreWitness.

(** ** Creating a recipe *)

Section Create.
Import RecipeSerializer RecipeTags RecipeCreate Api.

Variable amount_max : Z.
Variable set_order : list Z -> list Z.
Local Abbreviation tags_set := (RecipeSerializer.tags_set set_order).
Local Abbreviation bulk_create := (RecipeSerializer.bulk_create amount_max).
Local Abbreviation create := (RecipeCreate.create amount_max set_order).
Hypothesis set_order_perm : forall l, Permutation (set_order l) l.

Lemma run_eta {A} (m : M A) (db : DB) :
  m db = (result m db, after m db, statements m db).
Proof. unfold result, after, statements. now destruct (m db) as [[o d] l]. Qed.

Lemma filter_all_false {A} (f : A -> bool) (l : list A) :
  (forall x, In x l -> f x = false) -> filter f l = [].
Proof.
  induction l as [|x l IH]; intros H; [reflexivity|]. cbn [filter].
  rewrite (H x (or_introl eq_refl)). apply IH. intros y Hy. apply H. now right.
Qed.

Lemma find_appended (pk : Z) (l : list Recipe) (x : Recipe) :
  (forall r, In r l -> recipe_pk r <> pk) ->
  recipe_pk x = pk ->
  find (fun r => recipe_pk r =? pk) (l ++ [x]) = Some x.
Proof.
  intros F E. induction l as [|r rest IH].
  - cbn. now rewrite E, Z.eqb_refl.
  - cbn [app find].
    destruct (Z.eqb_spec (recipe_pk r) pk) as [Er|Er].
    + exfalso. now apply (F r (or_introl eq_refl)).
    + apply IH. intros y Hy. apply F. now right.
Qed.

(** A creation under a fresh key, with ingredients the database accepts
    (stored ingredients, each listed once, amounts from 1 up to the maximum
    of the column), succeeds: the recipe is stored under the key with the
    fields of the data, its ingredient associations are exactly the listed
    pairs, and its tags are exactly the listed tags, each once. *)
Theorem create_stores_recipe (pk : Z) (vd : created_data) (db : DB) :
  (forall r, In r (Recipe_objects db) -> recipe_pk r <> pk) ->
  (forall r, In r (rows (RecipeTag_objects db)) -> rt_recipe r <> pk) ->
  (forall r, In r (rows (RecipeIngredient_objects db)) -> ri_recipe r <> pk) ->
  NoDup (map item_id (cd_recipeingredient_set vd)) ->
  (forall it, In it (cd_recipeingredient_set vd) ->
     existsb (fun i => ingredient_pk i =? item_id it) (Ingredient_objects db)
     = true
     /\ 1 <= item_amount it <= amount_max) ->
  let recipe := mkRecipe pk (cd_name vd) (cd_text vd) (cd_cooking_time vd)
                  (cd_image vd) (cd_author vd) in
  exists db' stmts,
    create pk vd db = (Ok recipe, db', stmts)
    /\ find (fun r => recipe_pk r =? pk) (Recipe_objects db') = Some recipe
    /\ Permutation (recipeingredient_set recipe db')
         (pairs (cd_recipeingredient_set vd))
    /\ (forall t, In t (tags_all recipe db') <-> In t (cd_tags vd))
    /\ NoDup (tags_all recipe db')
    /\ (forall model, objects model db' = objects model db).
Proof.
  intros FR FT FI N V. cbv zeta.
  set (recipe := mkRecipe pk _ _ _ _ _).
  set (db1 := set_Recipe_objects (Recipe_objects db ++ [recipe]) db).
  assert (C1 : Recipe_objects_create pk vd db = (Ok recipe, db1, [Insert TRecipe])).
  { unfold Recipe_objects_create. cbv zeta.
    replace (existsb _ (Recipe_objects db)) with false; [reflexivity|].
    symmetry. destruct (existsb _ _) eqn:E; [|reflexivity].
    apply existsb_exists in E. destruct E as (r & Hr & E).
    apply Z.eqb_eq in E. now apply FR in Hr. }
  destruct (tags_set_rows set_order set_order_perm recipe (cd_tags vd) db1)
    as [T2 R2]. cbv zeta in R2.
  destruct (tags_set_frame set_order recipe (cd_tags vd) db1) as [t2 F2].
  set (db2 := after (tags_set recipe (cd_tags vd)) db1) in *.
  destruct (bulk_create_run amount_max recipe (cd_recipeingredient_set vd) db2)
    as (db3 & st3 & C3 & R3).
  { exact N. }
  { intros it Hit. destruct (V it Hit) as [FK Am]. split; [|lia].
    rewrite F2. exact FK. }
  { intros r Hr. rewrite F2 in Hr. now apply FI. }
  destruct (bulk_create_frame amount_max recipe (cd_recipeingredient_set vd)
              db2) as [t3 F3].
  assert (E3 : db3 = set_RecipeIngredient_objects t3 db2).
  { rewrite <- F3. unfold after. now rewrite C3. }
  assert (Tags : tags_all recipe db3 = set_order (dedup (cd_tags vd))).
  { unfold tags_all at 1. rewrite E3.
    cbn [RecipeTag_objects set_RecipeIngredient_objects].
    change (map rt_tag (filter _ (rows (RecipeTag_objects db2))))
      with (tags_all recipe db2).
    subst db2. rewrite (tags_all_after_set set_order set_order_perm).
    assert (Old : tags_all recipe db1 = []).
    { unfold tags_all. cbn [RecipeTag_objects set_Recipe_objects db1].
      rewrite filter_all_false; [reflexivity|].
      intros r Hr. apply Z.eqb_neq. now apply FT. }
    rewrite Old. cbn [filter app mem existsb negb]. do 2 f_equal.
    apply forallb_filter_id. apply forallb_forall. reflexivity. }
  exists db3. eexists. split; [|split; [|split; [|split; [|split]]]].
  - assert (C2 : tags_set recipe (cd_tags vd) db1
                 = (Ok tt, db2, statements (tags_set recipe (cd_tags vd)) db1))
      by (rewrite (run_eta (tags_set recipe (cd_tags vd)) db1), T2; reflexivity).
    unfold create. eapply bind_ok; [exact C1|].
    eapply bind_ok; [exact C2|].
    eapply bind_ok; [exact C3|]. reflexivity.
  - rewrite E3, F2. cbn [Recipe_objects set_RecipeIngredient_objects
                           set_RecipeTag_objects set_Recipe_objects db1].
    now apply find_appended.
  - unfold recipeingredient_set. rewrite R3, filter_app, map_app, new_rows_pairs.
    rewrite F2. cbn [RecipeIngredient_objects set_RecipeTag_objects
                       set_Recipe_objects db1].
    rewrite filter_all_false; [apply Permutation_refl|].
    intros r Hr. apply Z.eqb_neq. now apply FI.
  - intros t. rewrite Tags.
    rewrite (In_set_order set_order set_order_perm). apply In_dedup.
  - rewrite Tags.
    apply (NoDup_set_order set_order set_order_perm), NoDup_dedup.
  - intros model. rewrite E3, F2. now destruct model.
Qed.

End Create.

Section CreateWitness.
Import RecipeSerializer RecipeTags RecipeCreate Api.

Lemma create_stores_recipe_witness :
  exists db' stmts,
    create 2147483647 (@rev Z) 3
      (mkCreated "Каша" "..." 20 "recipes/3.png" 1 [4; 4; 9]
         [mkIngredientItem 2 300; mkIngredientItem 1 40]) Sample.db0
    = (Ok (mkRecipe 3 "Каша" "..." 20 "recipes/3.png" 1), db', stmts)
    /\ find (fun r => recipe_pk r =? 3) (Recipe_objects db')
       = Some (mkRecipe 3 "Каша" "..." 20 "recipes/3.png" 1)
    /\ Permutation
         (recipeingredient_set (mkRecipe 3 "Каша" "..." 20 "recipes/3.png" 1)
            db')
         [(2, 300); (1, 40)]
    /\ (forall t, In t (tags_all (mkRecipe 3 "Каша" "..." 20 "recipes/3.png" 1)
                          db')
                  <-> In t [4; 4; 9])
    /\ NoDup (tags_all (mkRecipe 3 "Каша" "..." 20 "recipes/3.png" 1) db')
    /\ (forall model, objects model db' = objects model Sample.db0).
Proof.
  apply (create_stores_recipe 2147483647 (@rev Z)
           (fun l => Permutation_sym (Permutation_rev l)) 3
           (mkCreated "Каша" "..." 20 "recipes/3.png" 1 [4; 4; 9]
              [mkIngredientItem 2 300; mkIngredientItem 1 40]) Sample.db0).
  - intros r [<-|[<-|[]]]; discriminate.
  - intros r [].
  - intros r [<-|[<-|[<-|[]]]]; discriminate.
  - repeat constructor; cbn; intuition discriminate.
  - intros it [<-|[<-|[]]]; split; (reflexivity || (cbn; lia)).
Defined.

End CreateWitness.

(** ** The validators *)

Section ValidatorsFacts.
Import Validators.

Variable V : Type.
Variable eqb : V -> V -> bool.
Hypothesis eqb_eq : forall x y, eqb x y = true <-> x = y.

Lemma In_pyset {A} (e : A -> A -> bool) (l : list A) (x : A) :
  (forall a b, e a b = true <-> a = b) ->
  (In x (pyset e l) <-> In x l).
Proof.
  intros He. induction l as [|y l IH]; cbn [pyset In]; [tauto|].
  rewrite filter_In, IH, negb_true_iff. split.
  - tauto.
  - intros [->|H]; [now left|].
    destruct (e x y) eqn:E; [apply He in E; now left | right; now split].
Qed.

Lemma length_pyset_le {A} (e : A -> A -> bool) (l : list A) :
  (List.length (pyset e l) <= List.length l)%nat.
Proof.
  induction l as [|y l IH]; cbn [pyset List.length]; [lia|].
  pose proof (length_filter_le (fun z => negb (e z y)) (pyset e l)). lia.
Qed.

(** [len(l) == len(set(l))] says that [l] has no duplicate. *)
Lemma length_pyset {A} (e : A -> A -> bool) (l : list A) :
  (forall a b, e a b = true <-> a = b) ->
  (Nat.eqb (List.length l) (List.length (pyset e l)) = true <-> NoDup l).
Proof.
  intros He. rewrite Nat.eqb_eq.
  induction l as [|y l IH]; cbn [pyset List.length].
  - split; [constructor | reflexivity].
  - pose proof (length_filter_le (fun z => negb (e z y)) (pyset e l)) as L1.
    pose proof (length_pyset_le e l) as L2. split.
    + intros E.
      assert (E1 : List.length (filter (fun z => negb (e z y)) (pyset e l))
                   = List.length (pyset e l)) by lia.
      assert (E2 : List.length l = List.length (pyset e l)) by lia.
      constructor; [|now apply IH].
      intros Hin. apply (In_pyset e l y He) in Hin.
      clear - E1 Hin He.
      induction (pyset e l) as [|z s IHs]; [destruct Hin|].
      cbn [filter List.length] in E1.
      pose proof (length_filter_le (fun z => negb (e z y)) s).
      destruct (e z y) eqn:Ez; cbn [negb List.length] in E1; [lia|].
      destruct Hin as [->|Hin].
      * assert (e y y = true) by now apply He. congruence.
      * apply IHs; [lia | assumption].
    + intros N. inversion N as [|? ? Hy Hl]; subst.
      apply IH in Hl. f_equal. rewrite Hl at 1. symmetry.
      f_equal. apply forallb_filter_id. apply forallb_forall.
      intros z Hz. apply negb_true_iff.
      destruct (e z y) eqn:Ez; [|reflexivity].
      apply He in Ez. subst z. apply (In_pyset e l y He) in Hz. contradiction.
Qed.

Lemma option_eqb_eq (a b : option V) : option_eqb V eqb a b = true <-> a = b.
Proof.
  destruct a as [x|], b as [y|]; cbn; try (split; congruence).
  rewrite eqb_eq. split; congruence.
Qed.


(** [validate_ingredients] rejects the empty list. On a list that starts
    with a dict it accepts exactly the lists of dicts with pairwise distinct
    ids, a missing id counting as one value; a list that starts with
    something else is accepted as it is, whatever follows. *)
Theorem validate_ingredients_accepts (value : list (entry V)) :
  validate_ingredients V eqb value <> Valid []
  /\ (forall id rest,
        value = Dict id :: rest ->
        (validate_ingredients V eqb value = Valid value
         <-> exists ids, get_ids V value = Some ids /\ NoDup ids))
  /\ (forall rest,
        value = NotDict :: rest ->
        validate_ingredients V eqb value = Valid value).
Proof.
  split; [|split].
  - unfold validate_ingredients. destruct value as [|[id|] rest];
      [discriminate | | discriminate].
    destruct (get_ids V _); [|discriminate].
    destruct (negb _); discriminate.
  - intros id rest ->. unfold validate_ingredients.
    destruct (get_ids V (Dict id :: rest)) as [ids|].
    + pose proof (length_pyset (option_eqb V eqb) ids option_eqb_eq) as L.
      destruct (Nat.eqb _ _); cbn [negb].
      * split; [intros _; exists ids; split; [reflexivity | now apply L]
               | reflexivity].
      * split; [discriminate|]. intros (ids' & [= <-] & N).
        apply L in N. discriminate.
    + split; [discriminate | intros (ids & E & _); discriminate].
  - intros rest ->. reflexivity.
Qed.

(** [validate] passes the data on exactly when both keys are present and
    both validators accept; a missing [ingredients] is reported before a
    missing [tags], and the error of the ingredients before that of the
    tags. *)
Theorem validate_accepts {D} (ingredients : option (list (entry V)))
    (tags : option (list V)) (data : D) :
  (validate V eqb ingredients tags data = Valid data
   <-> exists i t,
         ingredients = Some i /\ tags = Some t
         /\ validate_ingredients V eqb i = Valid i
         /\ validate_tags V eqb t = Valid t)
  /\ (ingredients = None ->
      validate V eqb ingredients tags data
      = Invalid (FieldError "ingredients" "Поле обязательно"))
  /\ (forall i e,
        ingredients = Some i -> tags <> None ->
        validate_ingredients V eqb i = Invalid e ->
        validate V eqb ingredients tags data = Invalid e).
Proof.
  split; [|split].
  - unfold validate. destruct ingredients as [i|].
    2:{ split; [discriminate | intros (? & ? & E & _); discriminate]. }
    destruct tags as [t|].
    2:{ split; [discriminate | intros (? & ? & _ & E & _); discriminate]. }
    assert (Hi : forall v, validate_ingredients V eqb i = Valid v -> v = i).
    { unfold validate_ingredients. destruct i as [|[id|] rest];
        [discriminate | | now intros v [= <-]].
      destruct (get_ids V _); [|discriminate].
      destruct (negb _); [discriminate | now intros v [= <-]]. }
    assert (Ht : forall v, validate_tags V eqb t = Valid v -> v = t).
    { unfold validate_tags. destruct t as [|x rest]; [discriminate|].
      destruct (negb _); [discriminate | now intros v [= <-]]. }
    destruct (validate_ingredients V eqb i) as [vi|ei] eqn:Ei.
    + rewrite (Hi vi eq_refl) in *.
      destruct (validate_tags V eqb t) as [vt|et] eqn:Et.
      * rewrite (Ht vt eq_refl) in *. split; [intros _ | reflexivity].
        exists i, t. split; [reflexivity|]. split; [reflexivity|].
        split; [exact Ei | exact Et].
      * split; [discriminate|]. intros (i' & t' & [= <-] & [= <-] & _ & N).
        congruence.
    + split; [discriminate|]. intros (i' & t' & [= <-] & _ & E & _).
      congruence.
  - intros ->. reflexivity.
  - intros i e -> Ht Ei. unfold validate.
    destruct tags; [|contradiction]. now rewrite Ei.
Qed.

End ValidatorsFacts.

Section ValidatorsWitnesses.
Import Validators.


Lemma validate_ingredients_accepts_witness :
  validate_ingredients Z Z.eqb [Dict (Some 1); Dict None; Dict (Some 2)]
  = Valid [Dict (Some 1); Dict None; Dict (Some 2)]
  /\ validate_ingredients Z Z.eqb [NotDict; Dict (Some 1); Dict (Some 1)]
     = Valid [NotDict; Dict (Some 1); Dict (Some 1)].
Proof.
  destruct (validate_ingredients_accepts Z Z.eqb Z.eqb_eq
              [Dict (Some 1); Dict None; Dict (Some 2)]) as (_ & H & _).
  destruct (validate_ingredients_accepts Z Z.eqb Z.eqb_eq
              [NotDict; Dict (Some 1); Dict (Some 1)]) as (_ & _ & H').
  split.
  - apply (H (Some 1) [Dict None; Dict (Some 2)] eq_refl).
    eexists. split; [reflexivity|].
    repeat constructor; cbn; intuition discriminate.
  - apply (H' [Dict (Some 1); Dict (Some 1)] eq_refl).
Defined.

Lemma validate_accepts_witness :
  validate Z Z.eqb (Some [Dict (Some 1)]) (Some [5]) tt = Valid tt
  /\ validate Z Z.eqb None (@None (list Z)) tt
     = Invalid (FieldError "ingredients" "Поле обязательно").
Proof.
  destruct (@validate_accepts Z Z.eqb unit (Some [Dict (Some 1)])
              (Some [5]) tt) as [H _].
  destruct (@validate_accepts Z Z.eqb unit None None tt)
    as (_ & H' & _).
  split; [|apply H'; reflexivity].
  apply H. exists [Dict (Some 1)], [5]. repeat split.
Defined.

End ValidatorsWitnesses.
